(** * simple-gender-check: the classification client and the acquisition
      controller of the React front end.

    Embedded from [services/geminiService.ts] ([detectGenderFromImage]),
    [App.tsx] (the component state and its handlers) and [types.ts]
    ([GenderResult], [ImageData]). *)

From Stdlib Require Import List Arith NArith Bool String Ascii Lia.
Import ListNotations.

Set Implicit Arguments.

(** ** JavaScript strings

    A JavaScript string is a sequence of UTF-16 code units.  The literals of
    the source are all ASCII, and are written [js "..."]. *)

Definition jsstring := list N.

Definition js (s : string) : jsstring :=
  map N_of_ascii (list_ascii_of_string s).

(** [a === b] on strings. *)
Fixpoint str_eqb (a b : jsstring) : bool :=
  match a, b with
  | [], [] => true
  | x :: a', y :: b' => N.eqb x y && str_eqb a' b'
  | _, _ => false
  end.

(** [s.startsWith(p)]. *)
Fixpoint startsWith (s p : jsstring) {struct p} : bool :=
  match p, s with
  | [], _ => true
  | x :: p', y :: s' => N.eqb x y && startsWith s' p'
  | _ :: _, [] => false
  end.

(** [s.includes(p)]: [p] occurs in [s] at some position. *)
Fixpoint includes (s p : jsstring) : bool :=
  startsWith s p ||
  match s with
  | [] => false
  | _ :: s' => includes s' p
  end.

(** The code units that [String.prototype.trim] strips: WhiteSpace (TAB, VT,
    FF, SP, NBSP, ZWNBSP and the Unicode space separators) and LineTerminator
    (LF, CR, LS, PS). *)
Definition isWhiteSpace (c : N) : bool :=
  ((9 <=? c) && (c <=? 13) || (c =? 32) || (c =? 160) || (c =? 5760) ||
   (8192 <=? c) && (c <=? 8202) || (c =? 8232) || (c =? 8233) ||
   (c =? 8239) || (c =? 8287) || (c =? 12288) || (c =? 65279))%N.

Fixpoint trimStart (s : jsstring) : jsstring :=
  match s with
  | [] => []
  | c :: s' => if isWhiteSpace c then trimStart s' else s
  end.

Definition trimEnd (s : jsstring) : jsstring := rev (trimStart (rev s)).

Definition trim (s : jsstring) : jsstring := trimEnd (trimStart s).

(** [String.prototype.toLowerCase] applies the Unicode case mapping of the
    host, whose tables are not part of the repository: the classification is
    stated for any mapping.  [asciiCase] is the mapping restricted to A-Z; it
    agrees with the host on every string of code units below 128. *)
Class CaseMapping := { toLowerCase : jsstring -> jsstring }.

Definition lowerUnit (c : N) : N :=
  if ((65 <=? c) && (c <=? 90))%N then (c + 32)%N else c.

Definition asciiCase : CaseMapping := {| toLowerCase := map lowerUnit |}.

(** [s.split(',')]: the fields between commas, never empty as a list. *)
Fixpoint split_comma (s : jsstring) : list jsstring :=
  match s with
  | [] => [[]]
  | c :: s' =>
      if (c =? 44)%N then [] :: split_comma s'
      else match split_comma s' with
           | [] => [[c]]
           | f :: fs => (c :: f) :: fs
           end
  end.

(** ** types.ts *)

(** [GenderResult]; [Null] is the [null] member of the union. *)
Inductive GenderResult :=
| Male | Female | Indeterminate | NoFaceDetected | Error | Null.

Definition GenderResult_eqb (a b : GenderResult) : bool :=
  match a, b with
  | Male, Male | Female, Female | Indeterminate, Indeterminate
  | NoFaceDetected, NoFaceDetected | Error, Error | Null, Null => true
  | _, _ => false
  end.

(** [base64] is [undefined] when the data URL had no comma; [name] is the
    optional field. *)
Record ImageData := {
  base64 : option jsstring;
  mimeType : jsstring;
  name : option jsstring
}.

(** ** services/geminiService.ts *)

Definition MODEL_NAME : jsstring := js "gemini-2.5-flash-preview-04-17".

(** The template literal of lines 8-10; its two line breaks are code unit 10
    and each follows a space. *)
Definition PROMPT : jsstring :=
  js "Analyze the provided image. What is the perceived gender of the most prominent human face visible? "
  ++ [10%N] ++
  js "Respond with *only one* of the following keywords: 'Male', 'Female', 'Indeterminate'. "
  ++ [10%N] ++
  js "If no clear human face is visible, respond with 'NoFaceDetected'.".

(** The argument of [ai.models.generateContent]. *)
Record Request := {
  model : jsstring;
  inlineData_mimeType : jsstring;
  inlineData_data : option jsstring;
  text_part : jsstring
}.

(** The part of [GenerateContentResponse] the code reads: the [text]
    accessor, [undefined] when the reply has no text part. *)
Record GenerateContentResponse := { text : option jsstring }.

(** What a [throw] or a rejected promise carries. *)
Inductive Thrown :=
| TypeError
| Fault (detail : jsstring).

Inductive Completion (A : Type) :=
| Normal (a : A)
| Throw (e : Thrown).
Arguments Normal {A} a.
Arguments Throw {A} e.

(** The external vision model with its transport: how the awaited call
    settles for a request. *)
Definition VisionModel := Request -> Completion GenerateContentResponse.

(** Observable effects, in the order they happen. *)
Inductive Event :=
| ConsoleError (msg : jsstring) (detail : option Thrown)
| ConsoleWarn (msg : jsstring) (detail : jsstring)
| NetworkCall (req : Request).

(** Computations that log events and may throw. *)
Definition Eff (A : Type) := list Event -> Completion A * list Event.

Definition ret {A} (a : A) : Eff A := fun log => (Normal a, log).

Definition throw {A} (e : Thrown) : Eff A := fun log => (Throw e, log).

Definition bind {A B} (m : Eff A) (k : A -> Eff B) : Eff B :=
  fun log =>
    match m log with
    | (Normal a, log') => k a log'
    | (Throw e, log') => (Throw e, log')
    end.

Definition try_catch {A} (body : Eff A) (handler : Thrown -> Eff A) : Eff A :=
  fun log =>
    match body log with
    | (Normal a, log') => (Normal a, log')
    | (Throw e, log') => handler e log'
    end.

Definition emit (e : Event) : Eff unit := fun log => (Normal tt, log ++ [e]).

Declare Scope eff_scope.
Delimit Scope eff_scope with eff.
Notation "x <- m ;; k" := (bind m (fun x => k))
  (at level 100, m at next level, right associativity) : eff_scope.
Notation "m ;; k" := (bind m (fun _ => k))
  (at level 100, right associativity) : eff_scope.
Open Scope eff_scope.

Definition console_error (msg : jsstring) (detail : option Thrown) : Eff unit :=
  emit (ConsoleError msg detail).

Definition console_warn (msg : jsstring) (detail : jsstring) : Eff unit :=
  emit (ConsoleWarn msg detail).

(** [await ai.models.generateContent(req)]: the call goes out, then settles
    as the model decides. *)
Definition generateContent (gemini : VisionModel) (req : Request)
  : Eff GenerateContentResponse :=
  emit (NetworkCall req) ;;
  match gemini req with
  | Normal r => ret r
  | Throw e => throw e
  end.

(** [response.text.trim()]: a [TypeError] when [text] is [undefined]. *)
Definition text_trim (response : GenerateContentResponse) : Eff jsstring :=
  match text response with
  | Some t => ret (trim t)
  | None => throw TypeError
  end.

(** [!API_KEY]: the variable is unset or the empty string. *)
Definition falsy (v : option jsstring) : bool :=
  match v with
  | None | Some [] => true
  | Some (_ :: _) => false
  end.

Section Classification.

Context {unicode : CaseMapping}.

(** The [else] branch of lines 42-46: the substring rules in their order. *)
Definition fallback (textResult : jsstring) : GenderResult :=
  if includes (toLowerCase textResult) (js "male") then Male
  else if includes (toLowerCase textResult) (js "female") then Female
  else if includes (toLowerCase textResult) (js "indeterminate")
  then Indeterminate
  else if includes (toLowerCase textResult) (js "no face") ||
          includes (toLowerCase textResult) (js "nofacedetected")
  then NoFaceDetected
  else Indeterminate.

(** [textResult as GenderResult] on the four keywords; [None] when the
    exact comparison of line 37 fails. *)
Definition exactMatch (textResult : jsstring) : option GenderResult :=
  if str_eqb textResult (js "Male") then Some Male
  else if str_eqb textResult (js "Female") then Some Female
  else if str_eqb textResult (js "Indeterminate") then Some Indeterminate
  else if str_eqb textResult (js "NoFaceDetected") then Some NoFaceDetected
  else None.

Definition request_of (imageData : ImageData) : Request :=
  {| model := MODEL_NAME;
     inlineData_mimeType := mimeType imageData;
     inlineData_data := base64 imageData;
     text_part := PROMPT |}.

(** [new GoogleGenAI({ apiKey })] only builds the client object; the one
    call that reaches the network is the awaited [generateContent]. *)
Definition detectGenderFromImage (API_KEY : option jsstring)
    (gemini : VisionModel) (imageData : ImageData) : Eff GenderResult :=
  if falsy API_KEY then
    console_error (js "API_KEY environment variable is not set.") None ;;
    ret Error
  else
    try_catch
      (response <- generateContent gemini (request_of imageData) ;;
       textResult <- text_trim response ;;
       match exactMatch textResult with
       | Some keyword => ret keyword
       | None =>
           console_warn (js "Unexpected response from Gemini API:")
                        textResult ;;
           ret (fallback textResult)
       end)
      (fun error =>
         console_error (js "Error calling Gemini API:") (Some error) ;;
         ret Error).

End Classification.

(** ** App.tsx *)

(** What the handlers read of a [File]. *)
Record File := {
  file_type : jsstring;
  file_size : N;
  file_name : jsstring
}.

(** A [MediaStream] obtained from [getUserMedia], by identity. *)
Definition MediaStream := nat.

Record HTMLVideoElement := { srcObject : option MediaStream }.

(** The component: its six [useState] cells, the two refs the handlers read
    ([None] and [false] stand for a [null] [current]), and what it has done
    to its surroundings: the camera streams whose tracks are still live and
    the console. *)
Record App := {
  selectedImage : option ImageData;
  previewUrl : option jsstring;
  genderResult : GenderResult;
  isLoading : bool;
  error : option jsstring;
  isCameraMode : bool;
  videoRef : option HTMLVideoElement;
  canvasRef : bool;
  openStreams : list MediaStream;
  console : list Event
}.

Definition setSelectedImage (v : option ImageData) (s : App) : App :=
  {| selectedImage := v; previewUrl := previewUrl s;
     genderResult := genderResult s; isLoading := isLoading s;
     error := error s; isCameraMode := isCameraMode s;
     videoRef := videoRef s; canvasRef := canvasRef s;
     openStreams := openStreams s; console := console s |}.

Definition setPreviewUrl (v : option jsstring) (s : App) : App :=
  {| selectedImage := selectedImage s; previewUrl := v;
     genderResult := genderResult s; isLoading := isLoading s;
     error := error s; isCameraMode := isCameraMode s;
     videoRef := videoRef s; canvasRef := canvasRef s;
     openStreams := openStreams s; console := console s |}.

Definition setGenderResult (v : GenderResult) (s : App) : App :=
  {| selectedImage := selectedImage s; previewUrl := previewUrl s;
     genderResult := v; isLoading := isLoading s;
     error := error s; isCameraMode := isCameraMode s;
     videoRef := videoRef s; canvasRef := canvasRef s;
     openStreams := openStreams s; console := console s |}.

Definition setIsLoading (v : bool) (s : App) : App :=
  {| selectedImage := selectedImage s; previewUrl := previewUrl s;
     genderResult := genderResult s; isLoading := v;
     error := error s; isCameraMode := isCameraMode s;
     videoRef := videoRef s; canvasRef := canvasRef s;
     openStreams := openStreams s; console := console s |}.

Definition setError (v : option jsstring) (s : App) : App :=
  {| selectedImage := selectedImage s; previewUrl := previewUrl s;
     genderResult := genderResult s; isLoading := isLoading s;
     error := v; isCameraMode := isCameraMode s;
     videoRef := videoRef s; canvasRef := canvasRef s;
     openStreams := openStreams s; console := console s |}.

Definition setIsCameraMode (v : bool) (s : App) : App :=
  {| selectedImage := selectedImage s; previewUrl := previewUrl s;
     genderResult := genderResult s; isLoading := isLoading s;
     error := error s; isCameraMode := v;
     videoRef := videoRef s; canvasRef := canvasRef s;
     openStreams := openStreams s; console := console s |}.

Definition setVideoRef (v : option HTMLVideoElement) (s : App) : App :=
  {| selectedImage := selectedImage s; previewUrl := previewUrl s;
     genderResult := genderResult s; isLoading := isLoading s;
     error := error s; isCameraMode := isCameraMode s;
     videoRef := v; canvasRef := canvasRef s;
     openStreams := openStreams s; console := console s |}.

Definition setCanvasRef (v : bool) (s : App) : App :=
  {| selectedImage := selectedImage s; previewUrl := previewUrl s;
     genderResult := genderResult s; isLoading := isLoading s;
     error := error s; isCameraMode := isCameraMode s;
     videoRef := videoRef s; canvasRef := v;
     openStreams := openStreams s; console := console s |}.

Definition setOpenStreams (v : list MediaStream) (s : App) : App :=
  {| selectedImage := selectedImage s; previewUrl := previewUrl s;
     genderResult := genderResult s; isLoading := isLoading s;
     error := error s; isCameraMode := isCameraMode s;
     videoRef := videoRef s; canvasRef := canvasRef s;
     openStreams := v; console := console s |}.

Definition setConsole (v : list Event) (s : App) : App :=
  {| selectedImage := selectedImage s; previewUrl := previewUrl s;
     genderResult := genderResult s; isLoading := isLoading s;
     error := error s; isCameraMode := isCameraMode s;
     videoRef := videoRef s; canvasRef := canvasRef s;
     openStreams := openStreams s; console := v |}.

(** The first render: the initial values of the [useState] and [useRef]
    calls, nothing open, nothing logged. *)
Definition initialApp : App :=
  {| selectedImage := None; previewUrl := None; genderResult := Null;
     isLoading := false; error := None; isCameraMode := false;
     videoRef := None; canvasRef := false;
     openStreams := []; console := [] |}.

(** [stream.getTracks().forEach(track => track.stop())]: the stream has no
    live track left. *)
Definition stopTracks (stream : MediaStream) (s : App) : App :=
  setOpenStreams (filter (fun st => negb (Nat.eqb st stream)) (openStreams s)) s.

(** The stream the video element holds, if the element is mounted. *)
Definition attachedStream (s : App) : option MediaStream :=
  match videoRef s with
  | Some video => srcObject video
  | None => None
  end.

Definition resetState (s : App) : App :=
  let s := setSelectedImage None s in
  let s := setPreviewUrl None s in
  let s := setGenderResult Null s in
  let s := setError None s in
  let s :=
    match videoRef s with
    | Some video =>
        match srcObject video with
        | Some stream =>
            setVideoRef (Some {| srcObject := None |}) (stopTracks stream s)
        | None => s
        end
    | None => s
    end in
  setIsCameraMode false s.

Definition MAX_FILE_SIZE : N := 4 * 1024 * 1024.

Definition invalidTypeMessage : jsstring :=
  js "Invalid file type. Please upload an image (JPEG, PNG, WEBP, GIF, HEIC, HEIF).".

Definition tooLargeMessage : jsstring :=
  js "Image too large. Maximum size is 4MB.".

(** [handleImageUpload] up to [reader.readAsDataURL(file)]; the second
    component is the file whose read has been started, if any.  [file] is
    [event.target.files?.[0]]. *)
Definition handleImageUpload (file : option File) (s : App)
  : App * option File :=
  let s := resetState s in
  match file with
  | Some file =>
      if negb (startsWith (file_type file) (js "image/")) then
        (setError (Some invalidTypeMessage) s, None)
      else if (MAX_FILE_SIZE <? file_size file)%N then
        (setError (Some tooLargeMessage) s, None)
      else (s, Some file)
  | None => (s, None)
  end.

(** [reader.onloadend]: [result] is [reader.result] ([None] for [null],
    after a failed read: [split] of [null] throws and no setter runs);
    [objectURL] is what [URL.createObjectURL(file)] returns. *)
Definition reader_onloadend (file : File) (result : option jsstring)
    (objectURL : jsstring) (s : App) : App :=
  match result with
  | Some base64WithPrefix =>
      let base64Data := nth_error (split_comma base64WithPrefix) 1 in
      let s := setSelectedImage
                 (Some {| base64 := base64Data; mimeType := file_type file;
                          name := Some (file_name file) |}) s in
      setPreviewUrl (Some objectURL) s
  | None => s
  end.

Definition reader_onerror (s : App) : App :=
  setError (Some (js "Failed to read file.")) s.

(** [startCamera] up to the [await]. *)
Definition startCamera_begin (s : App) : App :=
  setIsCameraMode true (resetState s).

(** [startCamera] after [getUserMedia] resolved with [stream], now open. *)
Definition startCamera_granted (stream : MediaStream) (s : App) : App :=
  let s := setOpenStreams (stream :: openStreams s) s in
  match videoRef s with
  | Some _ => setVideoRef (Some {| srcObject := Some stream |}) s
  | None => s
  end.

(** [startCamera] after [getUserMedia] rejected with [err]. *)
Definition startCamera_denied (err : Thrown) (s : App) : App :=
  let s := setConsole
             (console s ++ [ConsoleError (js "Error accessing camera:") (Some err)])
             s in
  let s := setError
             (Some (js "Could not access camera. Please ensure permissions are granted."))
             s in
  setIsCameraMode false s.

(** [captureImage]: [context] tells whether [getContext('2d')] gave a
    context, [dataUrl] is what [canvas.toDataURL('image/jpeg')] returns.
    With no stream on the video element [getTracks] is called on [null] and
    the handler ends there, after the two setters. *)
Definition captureImage (context : bool) (dataUrl : jsstring) (s : App) : App :=
  match videoRef s with
  | Some video =>
      if canvasRef s then
        if context then
          let base64Data := nth_error (split_comma dataUrl) 1 in
          let s := setSelectedImage
                     (Some {| base64 := base64Data; mimeType := js "image/jpeg";
                              name := None |}) s in
          let s := setPreviewUrl (Some dataUrl) s in
          match srcObject video with
          | Some stream =>
              let s := stopTracks stream s in
              let s := setVideoRef (Some {| srcObject := None |}) s in
              setIsCameraMode false s
          | None => s
          end
        else s
      else s
  | None => s
  end.

Definition detectFailedMessage : jsstring :=
  js "Failed to detect gender. The API might be unavailable or an error occurred. Check console for details.".

(** [handleDetectGender] up to the [await]; the second component is the
    image whose classification is now in flight, if any. *)
Definition handleDetectGender_begin (API_KEY : option jsstring) (s : App)
  : App * option ImageData :=
  match selectedImage s with
  | None => (setError (Some (js "Please select an image first.")) s, None)
  | Some image =>
      if falsy API_KEY then
        (setError
           (Some (js "API Key is not configured. Please check application setup."))
           s, None)
      else
        let s := setIsLoading true s in
        let s := setGenderResult Null s in
        let s := setError None s in
        (s, Some image)
  end.

(** [handleDetectGender] after the [await] gave [result]. *)
Definition handleDetectGender_resume (result : GenderResult) (s : App) : App :=
  let s :=
    if GenderResult_eqb result Error then setError (Some detectFailedMessage) s
    else setGenderResult result s in
  setIsLoading false s.

(** [handleDetectGender] when no other handler runs during the [await]. *)
Definition handleDetectGender {unicode : CaseMapping}
    (API_KEY : option jsstring) (gemini : VisionModel) (s : App) : App :=
  match handleDetectGender_begin API_KEY s with
  | (s, Some image) =>
      match detectGenderFromImage API_KEY gemini image (console s) with
      | (Normal result, log) =>
          handleDetectGender_resume result (setConsole log s)
      | (Throw _, log) => setConsole log s
      end
  | (s, None) => s
  end.

(** The commit of a render: the video and canvas elements exist exactly
    while [isCameraMode && !previewUrl] (lines 237-242); a new element has
    no [srcObject], a kept one keeps its own. *)
Definition commit (s : App) : App :=
  match isCameraMode s, previewUrl s with
  | true, None =>
      match videoRef s with
      | Some _ => setCanvasRef true s
      | None => setCanvasRef true (setVideoRef (Some {| srcObject := None |}) s)
      end
  | _, _ => setCanvasRef false (setVideoRef None s)
  end.

(** What the JSX shows and enables. *)

(** The result panel, [genderResult && genderResult !== "Error"]. *)
Definition displayedResult (s : App) : option GenderResult :=
  match genderResult s with
  | Null | Error => None
  | r => Some r
  end.

Definition isSome {A} (o : option A) : bool :=
  match o with Some _ => true | None => false end.

Definition uploadDisabled (s : App) : bool := isLoading s || isCameraMode s.

Definition cameraDisabled (s : App) : bool :=
  isLoading s && negb (isCameraMode s).

Definition detectShown (s : App) : bool :=
  isSome (selectedImage s) && isSome (previewUrl s) && negb (isCameraMode s).

Definition detectDisabled (s : App) : bool :=
  isLoading s || negb (isSome (selectedImage s)).

Definition resetShown (s : App) : bool :=
  isSome (selectedImage s) || isCameraMode s.

Definition resetDisabled (s : App) : bool := isLoading s && isCameraMode s.

(** ** Vocabulary of the statements *)

(** The four strings line 37 compares with. *)
Definition keywords : list jsstring :=
  [js "Male"; js "Female"; js "Indeterminate"; js "NoFaceDetected"].

(** The events of [after] that [before] did not have yet. *)
Definition emitted (before after : list Event) : list Event :=
  skipn (List.length before) after.

Definition isNetworkCall (e : Event) : bool :=
  match e with NetworkCall _ => true | _ => false end.

(** A model that answers every request with the text [t]. *)
Definition replies (t : jsstring) : VisionModel :=
  fun _ => Normal {| text := Some t |}.

(** A model whose reply has no text part. *)
Definition repliesNoText : VisionModel :=
  fun _ => Normal {| text := None |}.

(** A call that fails with [e]. *)
Definition rejects (e : Thrown) : VisionModel := fun _ => Throw e.

(** An image as the upload path produces it. *)
Definition sampleImage : ImageData :=
  {| base64 := Some (js "iVBORw0KGgo=");
     mimeType := js "image/png";
     name := Some (js "face.png") |}.

Definition sampleKey : option jsstring := Some (js "AIza-sample-key").

(** The [accept] attribute of the file input (line 224): what the file
    picker offers, which the handler does not consult. *)
Definition acceptedTypes : list jsstring :=
  [js "image/png"; js "image/jpeg"; js "image/webp"; js "image/gif";
   js "image/heic"; js "image/heif"].

(** No image and no camera: nothing selected, camera mode off, no stream on
    the video element. *)
Definition Idle (s : App) : Prop :=
  selectedImage s = None /\ isCameraMode s = false /\ attachedStream s = None.

(** Files and environment answers for the runs below. *)
Definition pngFile : File :=
  {| file_type := js "image/png"; file_size := 2048;
     file_name := js "face.png" |}.

Definition hugePngFile : File :=
  {| file_type := js "image/png"; file_size := 5 * 1024 * 1024;
     file_name := js "poster.png" |}.

Definition hugePdfFile : File :=
  {| file_type := js "application/pdf"; file_size := 5 * 1024 * 1024;
     file_name := js "scan.pdf" |}.

Definition tiffFile : File :=
  {| file_type := js "image/tiff"; file_size := 2048;
     file_name := js "scan.tiff" |}.

Definition pngDataUrl : jsstring := js "data:image/png;base64,iVBORw0KGgo=".

Definition tiffDataUrl : jsstring := js "data:image/tiff;base64,SUkqAA==".

Definition blobUrl : jsstring := js "blob:https://app.example/0b6e".

(** The component after the user picked [pngFile] and the read completed. *)
Definition selectedApp : App :=
  commit (reader_onloadend pngFile (Some pngDataUrl) blobUrl
            (commit (fst (handleImageUpload (Some pngFile) initialApp)))).

(** ... and after a classification of that image that answered "Male". *)
Definition classifiedApp : App :=
  commit (@handleDetectGender asciiCase sampleKey (replies (js "Male"))
            selectedApp).

(** ... or with that classification still in flight. *)
Definition submittedApp : App :=
  commit (fst (handleDetectGender_begin sampleKey selectedApp)).

(** ** The component as a transition system

    The handlers run one at a time, each followed by a render.  What is
    pending between two of them (file reads, camera requests, awaited
    classifications) is kept beside the component, with the object URLs
    created and not yet revoked. *)

Record Sys := {
  app : App;
  reads : list File;
  cameraRequests : nat;
  inFlight : list ImageData;
  objectURLs : list jsstring;
  nextStream : MediaStream
}.

Definition initialSys : Sys :=
  {| app := initialApp; reads := []; cameraRequests := 0; inFlight := [];
     objectURLs := []; nextStream := 0 |}.

Fixpoint remove_nth {A} (n : nat) (l : list A) : list A :=
  match l, n with
  | [], _ => []
  | _ :: l', O => l'
  | x :: l', S n' => x :: remove_nth n' l'
  end.

(** [Object.is] on two values of [previewUrl], the dependency of the
    effect. *)
Definition sameUrl (a b : option jsstring) : bool :=
  match a, b with
  | Some u, Some v => str_eqb u v
  | None, None => true
  | _, _ => false
  end.

Definition revokeObjectURL (u : jsstring) (urls : list jsstring)
  : list jsstring :=
  filter (fun v => negb (str_eqb v u)) urls.

(** The effect of lines 73-80: when [previewUrl] changes, the cleanup of the
    previous render revokes the old value if it starts with "blob:". *)
Definition previewCleanup (before after : option jsstring)
    (urls : list jsstring) : list jsstring :=
  match before with
  | Some u =>
      if sameUrl before after then urls
      else if startsWith u (js "blob:") then revokeObjectURL u urls
      else urls
  | None => urls
  end.

(** The render that follows a handler which left the cells as [a]. *)
Definition rendered (s : Sys) (a : App) : Sys :=
  {| app := commit a; reads := reads s; cameraRequests := cameraRequests s;
     inFlight := inFlight s;
     objectURLs := previewCleanup (previewUrl (app s)) (previewUrl a)
                     (objectURLs s);
     nextStream := nextStream s |}.

Definition withReads (v : list File) (s : Sys) : Sys :=
  {| app := app s; reads := v; cameraRequests := cameraRequests s;
     inFlight := inFlight s; objectURLs := objectURLs s;
     nextStream := nextStream s |}.

Definition withCameraRequests (v : nat) (s : Sys) : Sys :=
  {| app := app s; reads := reads s; cameraRequests := v;
     inFlight := inFlight s; objectURLs := objectURLs s;
     nextStream := nextStream s |}.

Definition withInFlight (v : list ImageData) (s : Sys) : Sys :=
  {| app := app s; reads := reads s; cameraRequests := cameraRequests s;
     inFlight := v; objectURLs := objectURLs s;
     nextStream := nextStream s |}.

Definition withObjectURLs (v : list jsstring) (s : Sys) : Sys :=
  {| app := app s; reads := reads s; cameraRequests := cameraRequests s;
     inFlight := inFlight s; objectURLs := v;
     nextStream := nextStream s |}.

Definition withNextStream (v : MediaStream) (s : Sys) : Sys :=
  {| app := app s; reads := reads s; cameraRequests := cameraRequests s;
     inFlight := inFlight s; objectURLs := objectURLs s;
     nextStream := v |}.

(** What can happen next: the user's clicks, guarded as the JSX guards them,
    and the completions of what is pending.  [ClickCamera] carries what the
    canvas would answer if the click turns out to be a capture. *)
Inductive Action :=
| PickFile (file : option File)
| ReadDone (n : nat) (dataUrl objectURL : jsstring)
| ReadFailed (n : nat)
| ClickCamera (context : bool) (dataUrl : jsstring)
| CameraGranted
| CameraDenied (err : Thrown)
| ClickDetect
| DetectSettled (n : nat) (gemini : VisionModel)
| ClickReset
| CloseAlert.

Section Machine.

Context {unicode : CaseMapping}.
Variable API_KEY : option jsstring.

(** One handler and the render after it; [None] when the control is not
    shown or disabled, or when nothing of that kind is pending.  An object
    URL is what [URL.createObjectURL] gives, a string that starts with
    "blob:".  A classification is run at the moment it settles. *)
Definition step (s : Sys) (a : Action) : option Sys :=
  let ui := app s in
  match a with
  | PickFile file =>
      if uploadDisabled ui then None
      else
        match handleImageUpload file ui with
        | (ui', Some started) =>
            Some (withReads (reads s ++ [started]) (rendered s ui'))
        | (ui', None) => Some (rendered s ui')
        end
  | ReadDone n dataUrl objectURL =>
      match nth_error (reads s) n with
      | Some file =>
          if startsWith objectURL (js "blob:") then
            Some (withReads (remove_nth n (reads s))
                    (rendered (withObjectURLs (objectURL :: objectURLs s) s)
                       (reader_onloadend file (Some dataUrl) objectURL ui)))
          else None
      | None => None
      end
  | ReadFailed n =>
      match nth_error (reads s) n with
      | Some file =>
          Some (withReads (remove_nth n (reads s))
                  (rendered s
                     (reader_onloadend file None [] (reader_onerror ui))))
      | None => None
      end
  | ClickCamera context dataUrl =>
      if cameraDisabled ui then None
      else if isCameraMode ui then
        Some (rendered s (captureImage context dataUrl ui))
      else
        Some (withCameraRequests (S (cameraRequests s))
                (rendered s (startCamera_begin ui)))
  | CameraGranted =>
      match cameraRequests s with
      | S pending =>
          Some (withCameraRequests pending
                  (withNextStream (S (nextStream s))
                     (rendered s (startCamera_granted (nextStream s) ui))))
      | O => None
      end
  | CameraDenied err =>
      match cameraRequests s with
      | S pending =>
          Some (withCameraRequests pending
                  (rendered s (startCamera_denied err ui)))
      | O => None
      end
  | ClickDetect =>
      if detectShown ui && negb (detectDisabled ui) then
        match handleDetectGender_begin API_KEY ui with
        | (ui', Some image) =>
            Some (withInFlight (inFlight s ++ [image]) (rendered s ui'))
        | (ui', None) => Some (rendered s ui')
        end
      else None
  | DetectSettled n gemini =>
      match nth_error (inFlight s) n with
      | Some image =>
          match detectGenderFromImage API_KEY gemini image (console ui) with
          | (Normal result, log) =>
              Some (withInFlight (remove_nth n (inFlight s))
                      (rendered s
                         (handleDetectGender_resume result
                            (setConsole log ui))))
          | (Throw _, log) =>
              Some (withInFlight (remove_nth n (inFlight s))
                      (rendered s (setConsole log ui)))
          end
      | None => None
      end
  | ClickReset =>
      if resetShown ui && negb (resetDisabled ui) then
        Some (rendered s (resetState ui))
      else None
  | CloseAlert =>
      match error ui with
      | Some _ => Some (rendered s (setError None ui))
      | None => None
      end
  end.

Fixpoint run (s : Sys) (actions : list Action) : option Sys :=
  match actions with
  | [] => Some s
  | a :: rest =>
      match step s a with
      | Some s' => run s' rest
      | None => None
      end
  end.

End Machine.

(** The requests among the events of a console. *)
Fixpoint requestsOf (log : list Event) : list Request :=
  match log with
  | [] => []
  | NetworkCall req :: rest => req :: requestsOf rest
  | _ :: rest => requestsOf rest
  end.

Definition jpegDataUrl : jsstring := js "data:image/jpeg;base64,/9j/4AAQ".

(** A session: a PNG is picked and read, classified as Male; then the camera
    is used, a frame captured and classified; the reply is still awaited. *)
Definition sampleSession : list Action :=
  [PickFile (Some pngFile); ReadDone 0 pngDataUrl blobUrl; ClickDetect;
   DetectSettled 0 (replies (js "Male")); ClickCamera true [];
   CameraGranted; ClickCamera true jpegDataUrl; ClickDetect].

(** ** What the component keeps true *)

Definition imageTyped (image : ImageData) : Prop :=
  startsWith (mimeType image) (js "image/") = true.

(** A classification is awaited exactly while [isLoading] is set, there is
    never more than one, and never in camera mode. *)
Definition LoadingInv (s : Sys) : Prop :=
  (isLoading (app s) = true <-> inFlight s <> []) /\
  List.length (inFlight s) <= 1 /\
  (isLoading (app s) = true -> isCameraMode (app s) = false).

(** The preview and the image come and go together, and the stored result
    is never Error. *)
Definition CellsInv (s : Sys) : Prop :=
  isSome (previewUrl (app s)) = isSome (selectedImage (app s)) /\
  genderResult (app s) <> Error.

(** Everything on its way to the model is declared an image. *)
Definition TypesInv (s : Sys) : Prop :=
  (forall file, In file (reads s) ->
     startsWith (file_type file) (js "image/") = true /\
     (file_size file <= MAX_FILE_SIZE)%N) /\
  (forall image, selectedImage (app s) = Some image -> imageTyped image) /\
  (forall image, In image (inFlight s) -> imageTyped image) /\
  (forall req, In req (requestsOf (console (app s))) ->
     startsWith (inlineData_mimeType req) (js "image/") = true /\
     model req = MODEL_NAME /\ text_part req = PROMPT).

(** Every object URL still alive is the preview on display. *)
Definition UrlsInv (s : Sys) : Prop :=
  forall u, In u (objectURLs s) ->
    previewUrl (app s) = Some u /\ startsWith u (js "blob:") = true.

(** The video and canvas elements exist exactly in camera mode without a
    preview, and a stream on the video element is an open one. *)
Definition VideoInv (s : Sys) : Prop :=
  isSome (videoRef (app s)) =
    isCameraMode (app s) && negb (isSome (previewUrl (app s))) /\
  canvasRef (app s) = isSome (videoRef (app s)) /\
  (forall stream, attachedStream (app s) = Some stream ->
     In stream (openStreams (app s))).

(** The state a session ends in ([initialSys] if it cannot run). *)
Definition stateAfter (actions : list Action) : Sys :=
  match @run asciiCase sampleKey initialSys actions with
  | Some s => s
  | None => initialSys
  end.

Definition sampleState : Sys := stateAfter sampleSession.

(** A session in which a file read completes in camera mode: a PNG is
    picked, the camera is started and granted while the read is pending, then
    the read completes and the preview takes the place of the video
    element. *)
Definition readDuringCameraSession : list Action :=
  [PickFile (Some pngFile); ClickCamera true []; CameraGranted;
   ReadDone 0 pngDataUrl blobUrl].

(** [s] holds a comma (code unit 44). *)
Definition hasComma (s : jsstring) : bool := existsb (N.eqb 44) s.

(** The component in camera mode with the stream [7] on the video element,
    after a render. *)
Definition cameraLiveApp : App :=
  commit (startCamera_granted 7 (commit (startCamera_begin classifiedApp))).

(** ** Facts about strings *)

Lemma str_eqb_eq (a b : jsstring) : str_eqb a b = true <-> a = b.
Proof.
  revert b; induction a as [|x a IH]; intros [|y b]; simpl;
    try (split; [discriminate | discriminate]); try tauto.
  rewrite andb_true_iff, N.eqb_eq, IH.
  split; [intros [-> ->]; reflexivity | intros E; inversion E; auto].
Qed.

Lemma str_eqb_refl (a : jsstring) : str_eqb a a = true.
Proof. apply str_eqb_eq; reflexivity. Qed.

Lemma str_eqb_neq (a b : jsstring) : str_eqb a b = false <-> a <> b.
Proof.
  rewrite <- str_eqb_eq. destruct (str_eqb a b); split; congruence.
Qed.

Lemma startsWith_spec (s p : jsstring) :
  startsWith s p = true <-> exists r, s = p ++ r.
Proof.
  revert s; induction p as [|x p IH]; intros s; simpl.
  - split; [exists s; reflexivity | reflexivity].
  - destruct s as [|y s].
    + split; [discriminate | intros [r E]; discriminate].
    + rewrite andb_true_iff, N.eqb_eq, IH. split.
      * intros [-> [r ->]]. exists r; reflexivity.
      * intros [r E]. inversion E; subst. split; [reflexivity | exists r; reflexivity].
Qed.

Lemma includes_spec (s p : jsstring) :
  includes s p = true <-> exists l r, s = l ++ p ++ r.
Proof.
  induction s as [|c s IH].
  - simpl. rewrite orb_false_r, startsWith_spec. split.
    + intros [r E]. exists [], r. exact E.
    + intros [l [r E]]. destruct l; [exists r; exact E | discriminate].
  - simpl. rewrite orb_true_iff, startsWith_spec, IH. split.
    + intros [[r E] | [l [r E]]].
      * exists [], r. exact E.
      * exists (c :: l), r. simpl. rewrite E. reflexivity.
    + intros [[|d l] [r E]].
      * left. exists r. exact E.
      * right. inversion E; subst. exists l, r. reflexivity.
Qed.

(** A text that holds [a ++ b] holds [b]. *)
Lemma includes_tail (s a b : jsstring) :
  includes s (a ++ b) = true -> includes s b = true.
Proof.
  rewrite !includes_spec. intros [l [r E]].
  exists (l ++ a), r. rewrite E, <- !app_assoc. reflexivity.
Qed.

Lemma includes_female_male (s : jsstring) :
  includes s (js "female") = true -> includes s (js "male") = true.
Proof. apply (includes_tail s (js "fe") (js "male")). Qed.

(** ** The classification client *)

Section ClassificationFacts.

Context {unicode : CaseMapping}.
Variables (API_KEY : option jsstring) (gemini : VisionModel)
          (imageData : ImageData) (log : list Event).

Lemma exactMatch_None (t : jsstring) : exactMatch t = None <-> ~ In t keywords.
Proof.
  assert (hit : forall k (r : GenderResult), In k keywords -> str_eqb t k = true ->
                            Some r = None <-> ~ In t keywords).
  { intros k r K E. apply str_eqb_eq in E. subst k.
    split; [discriminate | intros N; destruct (N K)]. }
  unfold exactMatch.
  destruct (str_eqb t (js "Male")) eqn:E1;
    [apply (hit (js "Male")); simpl; auto |].
  destruct (str_eqb t (js "Female")) eqn:E2;
    [apply (hit (js "Female")); simpl; auto |].
  destruct (str_eqb t (js "Indeterminate")) eqn:E3;
    [apply (hit (js "Indeterminate")); simpl; auto |].
  destruct (str_eqb t (js "NoFaceDetected")) eqn:E4;
    [apply (hit (js "NoFaceDetected")); simpl; auto 6 |].
  apply str_eqb_neq in E1, E2, E3, E4.
  split; [intros _ [H | [H | [H | [H | []]]]]; congruence | reflexivity].
Qed.

Lemma exactMatch_not_Null (t : jsstring) (r : GenderResult) :
  exactMatch t = Some r -> In r [Male; Female; Indeterminate; NoFaceDetected].
Proof.
  unfold exactMatch.
  repeat match goal with
         | |- context [if ?b then _ else _] => destruct b
         end; intros E; inversion E; subst; simpl; tauto.
Qed.

Lemma fallback_not_Null (t : jsstring) :
  In (fallback t) [Male; Female; Indeterminate; NoFaceDetected].
Proof.
  unfold fallback.
  repeat match goal with
         | |- context [if ?b then _ else _] => destruct b
         end; simpl; tauto.
Qed.

(** No credential: one console line, nothing else. *)
Lemma detect_unconfigured :
  falsy API_KEY = true ->
  detectGenderFromImage API_KEY gemini imageData log =
  (Normal Error,
   log ++ [ConsoleError (js "API_KEY environment variable is not set.") None]).
Proof. intros H. unfold detectGenderFromImage. rewrite H. reflexivity. Qed.

(** The awaited call rejects. *)
Lemma detect_rejected (e : Thrown) :
  falsy API_KEY = false ->
  gemini (request_of imageData) = Throw e ->
  detectGenderFromImage API_KEY gemini imageData log =
  (Normal Error,
   (log ++ [NetworkCall (request_of imageData)]) ++
   [ConsoleError (js "Error calling Gemini API:") (Some e)]).
Proof.
  intros H G. unfold detectGenderFromImage. rewrite H.
  unfold try_catch, generateContent, bind, emit. rewrite G. reflexivity.
Qed.

(** The call resolves with a reply that has no text. *)
Lemma detect_no_text (response : GenerateContentResponse) :
  falsy API_KEY = false ->
  gemini (request_of imageData) = Normal response ->
  text response = None ->
  detectGenderFromImage API_KEY gemini imageData log =
  (Normal Error,
   (log ++ [NetworkCall (request_of imageData)]) ++
   [ConsoleError (js "Error calling Gemini API:") (Some TypeError)]).
Proof.
  intros H G T. unfold detectGenderFromImage. rewrite H.
  unfold try_catch, generateContent, text_trim, bind, emit.
  rewrite G. simpl. rewrite T. reflexivity.
Qed.

(** The call resolves with the text [t]. *)
Lemma detect_text (response : GenerateContentResponse) (t : jsstring) :
  falsy API_KEY = false ->
  gemini (request_of imageData) = Normal response ->
  text response = Some t ->
  fst (detectGenderFromImage API_KEY gemini imageData log) =
  Normal match exactMatch (trim t) with
         | Some keyword => keyword
         | None => fallback (trim t)
         end.
Proof.
  intros H G T. unfold detectGenderFromImage. rewrite H.
  unfold try_catch, generateContent, text_trim, bind, emit.
  rewrite G. simpl. rewrite T. simpl.
  destruct (exactMatch (trim t)); reflexivity.
Qed.

End ClassificationFacts.

Lemma emitted_app (before new : list Event) :
  emitted before (before ++ new) = new.
Proof.
  unfold emitted. induction before as [|e before IH]; simpl; auto.
Qed.

(** Every call settles with one of the five outcomes. *)
Lemma detect_outcome {unicode : CaseMapping} API_KEY gemini imageData log :
  exists r,
    fst (detectGenderFromImage API_KEY gemini imageData log) = Normal r /\
    In r [Male; Female; Indeterminate; NoFaceDetected; Error].
Proof.
  destruct (falsy API_KEY) eqn:K.
  - exists Error. rewrite detect_unconfigured by exact K. simpl. tauto.
  - destruct (gemini (request_of imageData)) as [response | e] eqn:G.
    + destruct (text response) as [t |] eqn:T.
      * rewrite (detect_text _ _ _ log K G T).
        eexists; split; [reflexivity |].
        destruct (exactMatch (trim t)) as [k |] eqn:X.
        -- apply exactMatch_not_Null in X. simpl in *. tauto.
        -- pose proof (fallback_not_Null (trim t)). simpl in *. tauto.
      * exists Error. rewrite (detect_no_text _ _ _ log K G T). simpl. tauto.
    + exists Error. rewrite (detect_rejected _ _ _ log K G). simpl. tauto.
Qed.

(** C1: a reply whose trimmed text is none of the four keywords but holds
    "female" in its lower-cased form is classified Male: the first substring
    rule, "male", matches every text the second one, "female", matches. *)
Theorem fallback_female_returns_Male :
  forall (unicode : CaseMapping) API_KEY gemini imageData log t,
    falsy API_KEY = false ->
    gemini (request_of imageData) = Normal {| text := Some t |} ->
    ~ In (trim t) keywords ->
    includes (toLowerCase (trim t)) (js "female") = true ->
    fallback (trim t) = Male /\
    fst (detectGenderFromImage API_KEY gemini imageData log) = Normal Male.
Proof.
  intros unicode API_KEY gemini imageData log t K G X F.
  assert (FB : fallback (trim t) = Male).
  { unfold fallback. rewrite (includes_female_male _ F). reflexivity. }
  split; [exact FB |].
  rewrite (detect_text _ _ _ log K G eq_refl).
  apply exactMatch_None in X. rewrite X, FB. reflexivity.
Qed.

Lemma fallback_female_returns_Male_witness :
  @fallback asciiCase (trim (js "I believe this is Female.")) = Male /\
  fst (@detectGenderFromImage asciiCase sampleKey
         (replies (js "I believe this is Female.")) sampleImage [])
  = Normal Male.
Proof.
  apply (@fallback_female_returns_Male asciiCase).
  - reflexivity.
  - reflexivity.
  - vm_compute. intros [H | [H | [H | [H | []]]]]; discriminate H.
  - vm_compute. reflexivity.
Defined.

(** C2: the call never raises.  Whatever the credential, the image and the
    way the external call settles, [detectGenderFromImage] returns a result;
    with no credential, with a rejected call, and with a reply that has no
    text to trim, that result is Error. *)
Theorem detectGenderFromImage_never_raises :
  forall (unicode : CaseMapping) API_KEY gemini imageData log,
    (exists r,
        fst (detectGenderFromImage API_KEY gemini imageData log) = Normal r) /\
    (falsy API_KEY = true ->
     fst (detectGenderFromImage API_KEY gemini imageData log) = Normal Error) /\
    (forall e, gemini (request_of imageData) = Throw e ->
     fst (detectGenderFromImage API_KEY gemini imageData log) = Normal Error) /\
    (forall response, gemini (request_of imageData) = Normal response ->
     text response = None ->
     fst (detectGenderFromImage API_KEY gemini imageData log) = Normal Error).
Proof.
  intros unicode API_KEY gemini imageData log.
  assert (U : falsy API_KEY = true ->
              fst (detectGenderFromImage API_KEY gemini imageData log)
              = Normal Error).
  { intros K. rewrite detect_unconfigured by exact K. reflexivity. }
  repeat split.
  - destruct (detect_outcome API_KEY gemini imageData log) as [r [R _]].
    exists r. exact R.
  - exact U.
  - intros e G. destruct (falsy API_KEY) eqn:K; [auto |].
    rewrite (detect_rejected _ _ _ log K G). reflexivity.
  - intros response G T. destruct (falsy API_KEY) eqn:K; [auto |].
    rewrite (detect_no_text _ _ _ log K G T). reflexivity.
Qed.

(** A call that fails in transport, and a reply without text. *)
Example rejected_call_gives_Error :
  @detectGenderFromImage asciiCase sampleKey (rejects (Fault (js "503")))
    sampleImage [] =
  (Normal Error,
   [NetworkCall (request_of sampleImage);
    ConsoleError (js "Error calling Gemini API:") (Some (Fault (js "503")))]).
Proof. reflexivity. Qed.

Example reply_without_text_gives_Error :
  @detectGenderFromImage asciiCase sampleKey repliesNoText sampleImage [] =
  (Normal Error,
   [NetworkCall (request_of sampleImage);
    ConsoleError (js "Error calling Gemini API:") (Some TypeError)]).
Proof. reflexivity. Qed.

(** C3: with no credential configured (the variable unset or empty) the
    result is Error, the only effect is the console line, no request goes
    out, and the outcome does not depend on the external model at all. *)
Theorem no_credential_no_network_call :
  forall (unicode : CaseMapping) API_KEY gemini imageData log,
    falsy API_KEY = true ->
    fst (detectGenderFromImage API_KEY gemini imageData log) = Normal Error /\
    emitted log (snd (detectGenderFromImage API_KEY gemini imageData log)) =
      [ConsoleError (js "API_KEY environment variable is not set.") None] /\
    existsb isNetworkCall
      (emitted log (snd (detectGenderFromImage API_KEY gemini imageData log)))
    = false /\
    (forall gemini',
        detectGenderFromImage API_KEY gemini' imageData log =
        detectGenderFromImage API_KEY gemini imageData log).
Proof.
  intros unicode API_KEY gemini imageData log K.
  rewrite detect_unconfigured by exact K. simpl.
  rewrite emitted_app. repeat split.
  intros gemini'. rewrite detect_unconfigured by exact K. reflexivity.
Qed.

Lemma no_credential_no_network_call_witness :
  fst (@detectGenderFromImage asciiCase None (replies (js "Male"))
         sampleImage []) = Normal Error /\
  emitted [] (snd (@detectGenderFromImage asciiCase None (replies (js "Male"))
                     sampleImage [])) =
    [ConsoleError (js "API_KEY environment variable is not set.") None] /\
  existsb isNetworkCall
    (emitted [] (snd (@detectGenderFromImage asciiCase None
                        (replies (js "Male")) sampleImage []))) = false /\
  (forall gemini',
      @detectGenderFromImage asciiCase None gemini' sampleImage [] =
      @detectGenderFromImage asciiCase None (replies (js "Male"))
        sampleImage []).
Proof.
  apply (@no_credential_no_network_call asciiCase None). reflexivity.
Defined.

(** C4: a reply whose trimmed text is exactly one of the four keywords is
    returned as that keyword.  The comparison comes first: the substring
    rules are not consulted and no warning is logged, the request is the only
    event. *)
Theorem exact_keyword_returned_as_is :
  forall (unicode : CaseMapping) API_KEY gemini imageData log t,
    falsy API_KEY = false ->
    gemini (request_of imageData) = Normal {| text := Some t |} ->
    (trim t = js "Male" ->
     detectGenderFromImage API_KEY gemini imageData log =
     (Normal Male, log ++ [NetworkCall (request_of imageData)])) /\
    (trim t = js "Female" ->
     detectGenderFromImage API_KEY gemini imageData log =
     (Normal Female, log ++ [NetworkCall (request_of imageData)])) /\
    (trim t = js "Indeterminate" ->
     detectGenderFromImage API_KEY gemini imageData log =
     (Normal Indeterminate, log ++ [NetworkCall (request_of imageData)])) /\
    (trim t = js "NoFaceDetected" ->
     detectGenderFromImage API_KEY gemini imageData log =
     (Normal NoFaceDetected, log ++ [NetworkCall (request_of imageData)])).
Proof.
  intros unicode API_KEY gemini imageData log t K G.
  assert (run : detectGenderFromImage API_KEY gemini imageData log =
                match exactMatch (trim t) with
                | Some keyword =>
                    (Normal keyword, log ++ [NetworkCall (request_of imageData)])
                | None =>
                    (Normal (fallback (trim t)),
                     (log ++ [NetworkCall (request_of imageData)]) ++
                     [ConsoleWarn (js "Unexpected response from Gemini API:")
                        (trim t)])
                end).
  { unfold detectGenderFromImage. rewrite K.
    unfold try_catch, generateContent, text_trim, bind, emit.
    rewrite G. simpl. destruct (exactMatch (trim t)); reflexivity. }
  rewrite run. repeat split; intros E; rewrite E; reflexivity.
Qed.

Lemma exact_keyword_returned_as_is_witness :
  @detectGenderFromImage asciiCase sampleKey (replies (js "  Female "))
    sampleImage [] =
  (Normal Female, [NetworkCall (request_of sampleImage)]).
Proof.
  apply (@exact_keyword_returned_as_is asciiCase sampleKey
           (replies (js "  Female ")) sampleImage [] (js "  Female ")
           eq_refl eq_refl).
  reflexivity.
Defined.

(** With the ASCII mapping the substring rules alone would turn the keyword
    "Female" into Male; the exact comparison is what keeps it. *)
Example fallback_on_the_keyword_Female :
  @fallback asciiCase (js "Female") = Male /\
  exactMatch (js "Female") = Some Female.
Proof. split; reflexivity. Qed.

(** C9: a reply whose trimmed text is none of the four keywords and whose
    lower-cased form holds none of "male", "female", "indeterminate",
    "no face", "nofacedetected" is classified Indeterminate. *)
Theorem no_rule_matches_defaults_to_Indeterminate :
  forall (unicode : CaseMapping) API_KEY gemini imageData log t,
    falsy API_KEY = false ->
    gemini (request_of imageData) = Normal {| text := Some t |} ->
    ~ In (trim t) keywords ->
    includes (toLowerCase (trim t)) (js "male") = false ->
    includes (toLowerCase (trim t)) (js "female") = false ->
    includes (toLowerCase (trim t)) (js "indeterminate") = false ->
    includes (toLowerCase (trim t)) (js "no face") = false ->
    includes (toLowerCase (trim t)) (js "nofacedetected") = false ->
    fallback (trim t) = Indeterminate /\
    fst (detectGenderFromImage API_KEY gemini imageData log)
    = Normal Indeterminate.
Proof.
  intros unicode API_KEY gemini imageData log t K G X M F I N1 N2.
  assert (FB : fallback (trim t) = Indeterminate).
  { unfold fallback. rewrite M, F, I, N1, N2. reflexivity. }
  split; [exact FB |].
  rewrite (detect_text _ _ _ log K G eq_refl).
  apply exactMatch_None in X. rewrite X, FB. reflexivity.
Qed.

Lemma no_rule_matches_defaults_to_Indeterminate_witness :
  @fallback asciiCase (trim (js "I cannot tell.")) = Indeterminate /\
  fst (@detectGenderFromImage asciiCase sampleKey
         (replies (js "I cannot tell.")) sampleImage [])
  = Normal Indeterminate.
Proof.
  apply (@no_rule_matches_defaults_to_Indeterminate asciiCase);
    try reflexivity.
  vm_compute. intros [H | [H | [H | [H | []]]]]; discriminate H.
Defined.

(** C10: whatever the credential, the image and the external model do, the
    call returns one of Male, Female, Indeterminate, NoFaceDetected and
    Error, and so never the [null] member of [GenderResult]; [null] is the
    value the component starts with. *)
Theorem detectGenderFromImage_never_Null :
  forall (unicode : CaseMapping) API_KEY gemini imageData log,
    exists r,
      fst (detectGenderFromImage API_KEY gemini imageData log) = Normal r /\
      In r [Male; Female; Indeterminate; NoFaceDetected; Error] /\
      r <> Null /\
      genderResult initialApp = Null.
Proof.
  intros unicode API_KEY gemini imageData log.
  destruct (detect_outcome API_KEY gemini imageData log) as [r [R I]].
  exists r. repeat split; auto.
  intros ->. simpl in I. intuition discriminate.
Qed.

(** ** The acquisition controller *)

Lemma resetState_cells (s : App) :
  selectedImage (resetState s) = None /\
  previewUrl (resetState s) = None /\
  genderResult (resetState s) = Null /\
  error (resetState s) = None /\
  isCameraMode (resetState s) = false /\
  isLoading (resetState s) = isLoading s /\
  console (resetState s) = console s.
Proof.
  destruct s as [img url res loading err cam video canvas streams log].
  unfold resetState. simpl.
  destruct video as [[[stream |]] |]; simpl; repeat split.
Qed.

Lemma resetState_attachedStream (s : App) :
  attachedStream (resetState s) = None.
Proof.
  destruct s as [img url res loading err cam video canvas streams log].
  unfold resetState, attachedStream. simpl.
  destruct video as [[[stream |]] |]; reflexivity.
Qed.

Lemma resetState_openStreams (s : App) :
  openStreams (resetState s) =
  match attachedStream s with
  | Some stream =>
      filter (fun st => negb (Nat.eqb st stream)) (openStreams s)
  | None => openStreams s
  end.
Proof.
  destruct s as [img url res loading err cam video canvas streams log].
  unfold resetState, attachedStream. simpl.
  destruct video as [[[stream |]] |]; reflexivity.
Qed.

Lemma resetState_twice (s : App) : resetState (resetState s) = resetState s.
Proof.
  destruct s as [img url res loading err cam video canvas streams log].
  unfold resetState. simpl.
  destruct video as [[[stream |]] |]; reflexivity.
Qed.

Lemma resetState_commit_resetState (s : App) :
  resetState (commit (resetState s)) = commit (resetState s).
Proof.
  destruct s as [img url res loading err cam video canvas streams log].
  unfold resetState, commit. simpl.
  destruct video as [[[stream |]] |]; reflexivity.
Qed.

(** C8, as stated, fails on both counts.  A stream that is open but not on
    the mounted video element is out of reach of [resetState]: after a file
    read that completes in camera mode the video element is gone, the reset
    control is shown and enabled, and the stream [0] is still open after the
    reset.  And [resetState] does not write [isLoading]: a reset while a
    classification is in flight leaves it set, with the upload control
    disabled. *)
Lemma reset_leaves_an_unattached_stream_open :
  @run asciiCase sampleKey initialSys readDuringCameraSession
  = Some (stateAfter readDuringCameraSession) /\
  openStreams (app (stateAfter readDuringCameraSession)) = [0] /\
  attachedStream (app (stateAfter readDuringCameraSession)) = None /\
  resetShown (app (stateAfter readDuringCameraSession)) = true /\
  resetDisabled (app (stateAfter readDuringCameraSession)) = false /\
  openStreams (resetState (app (stateAfter readDuringCameraSession))) = [0] /\
  isLoading submittedApp = true /\
  resetShown submittedApp = true /\
  resetDisabled submittedApp = false /\
  isLoading (commit (resetState submittedApp)) = true /\
  uploadDisabled (commit (resetState submittedApp)) = true.
Proof.
  repeat apply conj; vm_compute; reflexivity.
Qed.

(** C8, amended: from any state [resetState] leaves no image, no preview, no
    result, no error, camera mode off and no stream on the video element,
    which is the situation of no image and no camera; the stream that was on
    the video element has been stopped; [isLoading] is left as it was.  A
    second reset changes nothing, whether or not a render comes between the
    two. *)
Theorem resetState_clears_the_cells_and_is_idempotent :
  forall s : App,
    Idle (resetState s) /\
    selectedImage (resetState s) = None /\
    previewUrl (resetState s) = None /\
    genderResult (resetState s) = Null /\
    error (resetState s) = None /\
    isCameraMode (resetState s) = false /\
    attachedStream (resetState s) = None /\
    (forall stream, attachedStream s = Some stream ->
                    ~ In stream (openStreams (resetState s))) /\
    isLoading (resetState s) = isLoading s /\
    resetState (resetState s) = resetState s /\
    resetState (commit (resetState s)) = commit (resetState s).
Proof.
  intros s.
  destruct (resetState_cells s) as [I [P [G [E [C [L _]]]]]].
  pose proof (resetState_attachedStream s) as A.
  repeat split; auto using resetState_twice, resetState_commit_resetState.
  intros stream At. rewrite resetState_openStreams, At.
  rewrite filter_In, Nat.eqb_refl. simpl. intros [_ F]. discriminate F.
Qed.

(** The component in camera mode with the stream [7] live on the video
    element, an earlier result and an error still in its cells. *)
Example resetState_from_camera_live :
  let s := startCamera_granted 7
             (commit (setError (Some tooLargeMessage)
                        (setGenderResult Female
                           (startCamera_begin initialApp)))) in
  attachedStream s = Some 7 /\ openStreams s = [7] /\
  isCameraMode s = true /\
  resetState s = setVideoRef (Some {| srcObject := None |})
                   (setCanvasRef true initialApp).
Proof. repeat split. Qed.

(** [handleImageUpload] by cases on the file. *)
Lemma handleImageUpload_cases (file : File) (s : App) :
  handleImageUpload (Some file) s =
  if negb (startsWith (file_type file) (js "image/")) then
    (setError (Some invalidTypeMessage) (resetState s), None)
  else if (MAX_FILE_SIZE <? file_size file)%N then
    (setError (Some tooLargeMessage) (resetState s), None)
  else (resetState s, Some file).
Proof. reflexivity. Qed.

(** C6, as stated, fails: the upload handler resets the component before it
    looks at the file.  With an image selected and its result on display, a
    5 MiB PNG is refused as too large, and the image and the result are
    gone; a 5 MiB file that is no image is refused for its type, not its
    size. *)
Lemma too_large_upload_clears_the_state :
  (MAX_FILE_SIZE < file_size hugePngFile)%N /\
  uploadDisabled classifiedApp = false /\
  selectedImage classifiedApp <> None /\
  genderResult classifiedApp = Male /\
  error (fst (handleImageUpload (Some hugePngFile) classifiedApp))
  = Some tooLargeMessage /\
  selectedImage (fst (handleImageUpload (Some hugePngFile) classifiedApp))
  = None /\
  genderResult (fst (handleImageUpload (Some hugePngFile) classifiedApp))
  = Null /\
  (MAX_FILE_SIZE < file_size hugePdfFile)%N /\
  error (fst (handleImageUpload (Some hugePdfFile) classifiedApp))
  = Some invalidTypeMessage.
Proof.
  repeat split; try reflexivity. discriminate.
Qed.

(** C6, amended: a file whose declared type starts with "image/" and whose
    size is above 4 MiB is refused with the too-large message and no read is
    started; the state left behind is the reset one with that message: no
    image, no preview, no result, camera mode off, no stream on the video
    element. *)
Theorem too_large_image_refused_after_reset :
  forall (file : File) (s : App),
    startsWith (file_type file) (js "image/") = true ->
    (MAX_FILE_SIZE < file_size file)%N ->
    handleImageUpload (Some file) s =
      (setError (Some tooLargeMessage) (resetState s), None) /\
    error (fst (handleImageUpload (Some file) s)) = Some tooLargeMessage /\
    selectedImage (fst (handleImageUpload (Some file) s)) = None /\
    previewUrl (fst (handleImageUpload (Some file) s)) = None /\
    genderResult (fst (handleImageUpload (Some file) s)) = Null /\
    isCameraMode (fst (handleImageUpload (Some file) s)) = false /\
    attachedStream (fst (handleImageUpload (Some file) s)) = None.
Proof.
  intros file s T Z.
  rewrite handleImageUpload_cases, T. simpl negb. cbv iota.
  apply N.ltb_lt in Z. rewrite Z. cbn [fst].
  destruct (resetState_cells s) as [I [P [G [E [C _]]]]].
  pose proof (resetState_attachedStream s) as A.
  repeat split; auto.
Qed.

Lemma too_large_image_refused_after_reset_witness :
  handleImageUpload (Some hugePngFile) classifiedApp =
    (setError (Some tooLargeMessage) (resetState classifiedApp), None) /\
  error (fst (handleImageUpload (Some hugePngFile) classifiedApp))
  = Some tooLargeMessage /\
  selectedImage (fst (handleImageUpload (Some hugePngFile) classifiedApp))
  = None /\
  previewUrl (fst (handleImageUpload (Some hugePngFile) classifiedApp))
  = None /\
  genderResult (fst (handleImageUpload (Some hugePngFile) classifiedApp))
  = Null /\
  isCameraMode (fst (handleImageUpload (Some hugePngFile) classifiedApp))
  = false /\
  attachedStream (fst (handleImageUpload (Some hugePngFile) classifiedApp))
  = None.
Proof.
  apply (too_large_image_refused_after_reset hugePngFile classifiedApp).
  - reflexivity.
  - reflexivity.
Defined.

(** C7, as stated, fails: the handler tests the prefix "image/" and nothing
    else.  A 2 KiB TIFF, whose type is not among the six of the [accept]
    attribute, gets no error, its read is started, and when the read
    completes it is the selected image, ready to be classified. *)
Lemma tiff_upload_is_accepted :
  ~ In (file_type tiffFile) acceptedTypes /\
  handleImageUpload (Some tiffFile) initialApp = (initialApp, Some tiffFile) /\
  error (fst (handleImageUpload (Some tiffFile) initialApp)) = None /\
  selectedImage
    (reader_onloadend tiffFile (Some tiffDataUrl) blobUrl
       (commit (fst (handleImageUpload (Some tiffFile) initialApp))))
  = Some {| base64 := Some (js "SUkqAA=="); mimeType := js "image/tiff";
            name := Some (js "scan.tiff") |} /\
  detectShown
    (commit (reader_onloadend tiffFile (Some tiffDataUrl) blobUrl
               (commit (fst (handleImageUpload (Some tiffFile) initialApp)))))
  = true.
Proof.
  repeat split; try reflexivity.
  vm_compute. intros [H | [H | [H | [H | [H | [H | []]]]]]]; discriminate H.
Qed.

(** C7, amended: the upload is refused with the invalid-type message, and
    nothing is read or stored, exactly when the declared type does not start
    with "image/".  Every file whose type has that prefix and whose size is
    at most 4 MiB is read, and once read it is stored as the selected image
    under its own declared type. *)
Theorem upload_type_check_is_the_image_prefix :
  forall (file : File) (s : App),
    (startsWith (file_type file) (js "image/") = false ->
     handleImageUpload (Some file) s =
       (setError (Some invalidTypeMessage) (resetState s), None) /\
     selectedImage (fst (handleImageUpload (Some file) s)) = None) /\
    (startsWith (file_type file) (js "image/") = true ->
     error (fst (handleImageUpload (Some file) s))
     <> Some invalidTypeMessage) /\
    (startsWith (file_type file) (js "image/") = true ->
     (file_size file <= MAX_FILE_SIZE)%N ->
     handleImageUpload (Some file) s = (resetState s, Some file) /\
     forall dataUrl objectURL s',
       selectedImage (reader_onloadend file (Some dataUrl) objectURL s') =
       Some {| base64 := nth_error (split_comma dataUrl) 1;
               mimeType := file_type file;
               name := Some (file_name file) |}).
Proof.
  intros file s. rewrite handleImageUpload_cases.
  destruct (resetState_cells s) as [I [P [G [E [C _]]]]].
  split; [| split].
  - intros T. rewrite T. cbn [negb fst]. split; [reflexivity | exact I].
  - intros T. rewrite T. simpl negb. cbv iota.
    destruct (MAX_FILE_SIZE <? file_size file)%N; cbn [fst].
    + intros X. inversion X.
    + rewrite E. discriminate.
  - intros T Z. rewrite T. simpl negb. cbv iota.
    apply N.ltb_ge in Z. rewrite Z. split; reflexivity.
Qed.

Lemma upload_type_check_is_the_image_prefix_witness :
  handleImageUpload (Some tiffFile) classifiedApp =
    (resetState classifiedApp, Some tiffFile) /\
  forall dataUrl objectURL s',
    selectedImage (reader_onloadend tiffFile (Some dataUrl) objectURL s') =
    Some {| base64 := nth_error (split_comma dataUrl) 1;
            mimeType := file_type tiffFile;
            name := Some (file_name tiffFile) |}.
Proof.
  apply (upload_type_check_is_the_image_prefix tiffFile classifiedApp).
  - reflexivity.
  - vm_compute. discriminate.
Defined.

(** ** A reset while a classification is in flight *)

(** [handleDetectGender_resume] writes its result whatever happened during
    the [await]. *)
Lemma handleDetectGender_resume_cells (result : GenderResult) (s : App) :
  isLoading (handleDetectGender_resume result s) = false /\
  selectedImage (handleDetectGender_resume result s) = selectedImage s /\
  previewUrl (handleDetectGender_resume result s) = previewUrl s /\
  genderResult (handleDetectGender_resume result s) =
    (if GenderResult_eqb result Error then genderResult s else result) /\
  error (handleDetectGender_resume result s) =
    (if GenderResult_eqb result Error then Some detectFailedMessage
     else error s).
Proof.
  unfold handleDetectGender_resume.
  destruct (GenderResult_eqb result Error); repeat split.
Qed.

Lemma GenderResult_eqb_eq (a b : GenderResult) :
  GenderResult_eqb a b = true <-> a = b.
Proof. destruct a, b; simpl; split; congruence. Qed.

(** C5, as stated, fails: nothing ties a response to the request it answers.
    The user picks a PNG and starts its classification; while the call is in
    flight the reset control is shown and enabled; after the reset nothing
    is selected and nothing displayed; when the call then resolves with
    Male, Male is stored and displayed, with no image selected. *)
Lemma reset_in_flight_result_is_displayed :
  snd (handleDetectGender_begin sampleKey selectedApp) <> None /\
  isLoading submittedApp = true /\
  resetShown submittedApp = true /\
  resetDisabled submittedApp = false /\
  displayedResult (commit (resetState submittedApp)) = None /\
  selectedImage (commit (resetState submittedApp)) = None /\
  genderResult
    (handleDetectGender_resume Male (commit (resetState submittedApp)))
  = Male /\
  displayedResult
    (handleDetectGender_resume Male (commit (resetState submittedApp)))
  = Some Male /\
  selectedImage
    (handleDetectGender_resume Male (commit (resetState submittedApp)))
  = None.
Proof.
  repeat split; try reflexivity. discriminate.
Qed.

(** C5, amended: a reset while a classification is in flight clears the
    image, the preview, the result and the error at once and leaves
    [isLoading] set; the response of that request is still committed when the
    call resolves: a result other than Error becomes the stored result, and
    is displayed, with no image selected, Error becomes the failure message,
    and [isLoading] is cleared. *)
Theorem reset_in_flight_result_is_committed :
  forall (API_KEY : option jsstring) (s s1 : App) (image : ImageData)
         (result : GenderResult),
    handleDetectGender_begin API_KEY s = (s1, Some image) ->
    (isLoading (resetState s1) = true /\
     selectedImage (resetState s1) = None /\
     previewUrl (resetState s1) = None /\
     genderResult (resetState s1) = Null /\
     error (resetState s1) = None) /\
    (selectedImage (handleDetectGender_resume result (resetState s1)) = None /\
     isLoading (handleDetectGender_resume result (resetState s1)) = false) /\
    (result = Error ->
     genderResult (handleDetectGender_resume result (resetState s1)) = Null /\
     error (handleDetectGender_resume result (resetState s1))
     = Some detectFailedMessage) /\
    (result <> Error ->
     genderResult (handleDetectGender_resume result (resetState s1)) = result /\
     error (handleDetectGender_resume result (resetState s1)) = None) /\
    (result <> Error -> result <> Null ->
     displayedResult (handleDetectGender_resume result (resetState s1))
     = Some result).
Proof.
  intros API_KEY s s1 image result B.
  assert (L : isLoading s1 = true).
  { unfold handleDetectGender_begin in B.
    destruct (selectedImage s); [| discriminate B].
    destruct (falsy API_KEY); [discriminate B |].
    inversion B. reflexivity. }
  destruct (resetState_cells s1) as [I [P [G [E [C [L' _]]]]]].
  destruct (handleDetectGender_resume_cells result (resetState s1))
    as [RL [RI [RP [RG RE]]]].
  split; [| split; [| split; [| split]]].
  - rewrite L', L. auto.
  - rewrite RI, RL. auto.
  - intros ->. rewrite RG, RE. simpl. auto.
  - intros N. rewrite RG, RE.
    destruct (GenderResult_eqb result Error) eqn:Q;
      [apply GenderResult_eqb_eq in Q; contradiction | auto].
  - intros N1 N2. unfold displayedResult. rewrite RG.
    destruct (GenderResult_eqb result Error) eqn:Q;
      [apply GenderResult_eqb_eq in Q; contradiction |].
    destruct result; try reflexivity; contradiction.
Qed.

Lemma reset_in_flight_result_is_committed_witness :
  genderResult
    (handleDetectGender_resume Female
       (resetState (fst (handleDetectGender_begin sampleKey selectedApp))))
  = Female /\
  error
    (handleDetectGender_resume Female
       (resetState (fst (handleDetectGender_begin sampleKey selectedApp))))
  = None.
Proof.
  apply (@reset_in_flight_result_is_committed sampleKey selectedApp
           (fst (handleDetectGender_begin sampleKey selectedApp))
           sampleImage Female eq_refl).
  discriminate.
Defined.

(** Without a reset in between, the same steps give the result of the image
    that is still selected. *)
Example detect_without_reset :
  selectedImage classifiedApp = Some sampleImage /\
  displayedResult classifiedApp = Some Male /\
  isLoading classifiedApp = false.
Proof. repeat split. Qed.

(** The stream of a camera request that is granted only after a reset is
    never put on the video element: it stays open, and a later reset does
    not reach it. *)
Example stream_granted_after_reset_stays_open :
  let pending := commit (startCamera_begin initialApp) in
  let granted := startCamera_granted 7 (commit (resetState pending)) in
  resetShown pending = true /\ resetDisabled pending = false /\
  attachedStream granted = None /\
  openStreams granted = [7] /\
  openStreams (resetState granted) = [7].
Proof. repeat split. Qed.

(** ** Invariants of the transition system *)

Lemma commit_cells (a : App) :
  selectedImage (commit a) = selectedImage a /\
  previewUrl (commit a) = previewUrl a /\
  genderResult (commit a) = genderResult a /\
  isLoading (commit a) = isLoading a /\
  error (commit a) = error a /\
  isCameraMode (commit a) = isCameraMode a /\
  openStreams (commit a) = openStreams a /\
  console (commit a) = console a.
Proof.
  destruct a as [img url res ld err cam vid cv os log].
  unfold commit. simpl.
  destruct cam, url, vid; repeat split.
Qed.

Lemma remove_nth_In {A} (n : nat) (l : list A) (x : A) :
  In x (remove_nth n l) -> In x l.
Proof.
  revert n; induction l as [|y l IH]; intros [|n]; simpl; auto.
  intros [E | I]; eauto.
Qed.

Lemma remove_nth_length {A} (n : nat) (l : list A) (x : A) :
  nth_error l n = Some x -> S (List.length (remove_nth n l)) = List.length l.
Proof.
  revert n; induction l as [|y l IH]; intros [|n]; simpl;
    try discriminate; auto.
Qed.

Lemma requestsOf_app (l1 l2 : list Event) :
  requestsOf (l1 ++ l2) = requestsOf l1 ++ requestsOf l2.
Proof.
  induction l1 as [|e l1 IH]; simpl; [reflexivity |].
  destruct e; simpl; rewrite IH; reflexivity.
Qed.

(** What one call adds to the console: with a credential exactly one
    request, the one built from the image; without, none. *)
Lemma detect_console {unicode : CaseMapping} API_KEY gemini imageData log :
  exists new,
    snd (detectGenderFromImage API_KEY gemini imageData log) = log ++ new /\
    requestsOf new =
      if falsy API_KEY then [] else [request_of imageData].
Proof.
  unfold detectGenderFromImage.
  destruct (falsy API_KEY).
  - eexists. split; reflexivity.
  - unfold try_catch, generateContent, text_trim, bind, emit,
      console_error, console_warn, ret, throw.
    destruct (gemini (request_of imageData)) as [response | e];
      [destruct (text response) as [t |];
       [destruct (exactMatch (trim t)) |] |];
      cbn [snd emit]; eexists;
      (split; [rewrite <- ?app_assoc; reflexivity | reflexivity]).
Qed.

Lemma detect_requests {unicode : CaseMapping} API_KEY gemini imageData log
    outcome log' req :
  detectGenderFromImage API_KEY gemini imageData log = (outcome, log') ->
  In req (requestsOf log') ->
  In req (requestsOf log) \/ req = request_of imageData.
Proof.
  intros D I.
  destruct (detect_console API_KEY gemini imageData log) as [new [S R]].
  rewrite D in S. simpl in S. subst log'.
  rewrite requestsOf_app, R in I. apply in_app_or in I.
  destruct I as [I | I]; [auto |].
  destruct (falsy API_KEY); simpl in I; intuition.
Qed.

Lemma previewCleanup_kept (before after : option jsstring)
    (urls : list jsstring) :
  (forall u, In u urls ->
     before = Some u /\ startsWith u (js "blob:") = true) ->
  forall u, In u (previewCleanup before after urls) ->
    after = Some u /\ startsWith u (js "blob:") = true.
Proof.
  intros U u I. unfold previewCleanup in I.
  destruct before as [b |].
  - destruct (sameUrl (Some b) after) eqn:Same.
    + destruct (U u I) as [E B]. inversion E; subst.
      destruct after as [v |]; [| discriminate Same].
      simpl in Same. apply str_eqb_eq in Same. subst. auto.
    + destruct (startsWith b (js "blob:")) eqn:Blob.
      * unfold revokeObjectURL in I. apply filter_In in I.
        destruct I as [I N]. destruct (U u I) as [E _]. inversion E; subst.
        rewrite str_eqb_refl in N. discriminate N.
      * destruct (U u I) as [E B]. inversion E; subst. congruence.
  - destruct (U u I) as [E _]. discriminate E.
Qed.

Lemma previewCleanup_created (before : option jsstring) (v : jsstring)
    (urls : list jsstring) :
  startsWith v (js "blob:") = true ->
  (forall u, In u urls ->
     before = Some u /\ startsWith u (js "blob:") = true) ->
  forall u, In u (previewCleanup before (Some v) (v :: urls)) ->
    Some v = Some u /\ startsWith u (js "blob:") = true.
Proof.
  intros V U u I.
  assert (K : forall w, In w urls -> w = v -> Some v = Some w /\
                        startsWith w (js "blob:") = true)
    by (intros w _ ->; auto).
  unfold previewCleanup in I.
  destruct before as [b |].
  - destruct (sameUrl (Some b) (Some v)) eqn:Same.
    + simpl in Same. apply str_eqb_eq in Same. subst b.
      destruct I as [<- | I]; [auto |].
      destruct (U u I) as [E B]. inversion E; subst. auto.
    + destruct (startsWith b (js "blob:")) eqn:Blob.
      * unfold revokeObjectURL in I. apply filter_In in I.
        destruct I as [[<- | I] N]; [auto |].
        destruct (U u I) as [E _]. inversion E; subst.
        rewrite str_eqb_refl in N. discriminate N.
      * destruct I as [<- | I]; [auto |].
        destruct (U u I) as [E B]. inversion E; subst. congruence.
  - destruct I as [<- | I]; [auto |].
    destruct (U u I) as [E _]. discriminate E.
Qed.

Ltac compute_cells :=
  cbv beta iota zeta delta
    [step rendered withReads withCameraRequests withInFlight
     withObjectURLs withNextStream commit
     uploadDisabled cameraDisabled detectShown detectDisabled
     resetShown resetDisabled handleImageUpload reader_onloadend
     reader_onerror startCamera_begin startCamera_granted
     startCamera_denied captureImage handleDetectGender_begin
     handleDetectGender_resume resetState stopTracks attachedStream
     setSelectedImage setPreviewUrl setGenderResult setIsLoading setError
     setIsCameraMode setVideoRef setCanvasRef setOpenStreams setConsole
     selectedImage previewUrl genderResult isLoading error isCameraMode
     videoRef canvasRef openStreams console srcObject
     app reads cameraRequests inFlight objectURLs nextStream
     isSome fst snd] in *.

Lemma detect_not_Throw {unicode : CaseMapping} API_KEY gemini image log e
    log' :
  detectGenderFromImage API_KEY gemini image log = (Throw e, log') -> False.
Proof.
  intros D. destruct (detect_outcome API_KEY gemini image log) as [r [R _]].
  rewrite D in R. discriminate R.
Qed.

Ltac split_on x :=
  lazymatch type of x with
  | list _ => fail
  | jsstring => fail
  | N => fail
  | positive => fail
  | _ => destruct x eqn:?
  end.

Ltac crunch :=
  repeat (compute_cells;
          match goal with
          | H : detectGenderFromImage _ _ _ _ = (Throw _, _) |- _ =>
              destruct (@detect_not_Throw _ _ _ _ _ _ _ H)
          | H : ?v = Throw _ |- _ => is_var v; subst v
          | H : ?v = Normal _ |- _ => is_var v; subst v
          | H : (_, _) = (_, _) |- _ => injection H as ? ?; subst
          | H : Some _ = Some _ |- _ => injection H as ?; subst
          | H : Build_App _ _ _ _ _ _ _ _ _ _ = Build_App _ _ _ _ _ _ _ _ _ _
            |- _ => injection H as ? ? ? ? ? ? ? ? ? ?; subst
          | H : None = Some _ |- _ => discriminate H
          | H : Some _ = None |- _ => discriminate H
          | H : true = false |- _ => discriminate H
          | H : false = true |- _ => discriminate H
          | H : context [match ?x with _ => _ end] |- _ => split_on x
          | |- context [match ?x with _ => _ end] => split_on x
          end);
  compute_cells.

Section MachineFacts.

Context {unicode : CaseMapping}.
Variable API_KEY : option jsstring.

(** A property that holds at the start and that every step keeps holds
    after every run. *)
Lemma run_invariant (P : Sys -> Prop) :
  (forall s s' a, P s -> step API_KEY s a = Some s' -> P s') ->
  forall actions s s', P s -> run API_KEY s actions = Some s' -> P s'.
Proof.
  intros K actions. induction actions as [|a rest IH]; simpl; intros s s' I R.
  - inversion R; subst. exact I.
  - destruct (step API_KEY s a) as [s1 |] eqn:S1; [| discriminate R].
    apply (IH s1); eauto.
Qed.

Lemma step_LoadingInv (s s' : Sys) (a : Action) :
  LoadingInv s -> step API_KEY s a = Some s' -> LoadingInv s'.
Proof.
  unfold LoadingInv.
  destruct s as [ui rd cr fl urls ns].
  destruct ui as [img url res ld err cam vid cv os log].
  destruct vid as [[[stream |]] |].
  all: intros [L1 [L2 L3]] H.
  all: destruct a.
  all: crunch.
  all: try solve [repeat split; auto; intuition congruence].
  all: try solve [
    repeat match goal with b : bool |- _ => destruct b end;
    simpl in *; try congruence;
    destruct fl as [| x [| y fl']]; simpl in *; try lia;
    try (destruct n as [| [| n]]; simpl in *); try congruence;
    repeat split; intros; try congruence; try lia; intuition congruence].
Qed.

Lemma step_CellsInv (s s' : Sys) (a : Action) :
  CellsInv s -> step API_KEY s a = Some s' -> CellsInv s'.
Proof.
  unfold CellsInv.
  destruct s as [ui rd cr fl urls ns].
  destruct ui as [img url res ld err cam vid cv os log].
  destruct vid as [[[stream |]] |].
  all: intros [C1 C2] H.
  all: destruct a.
  all: crunch.
  all: try solve [repeat split; auto; intuition congruence].
  all: try solve [split; [reflexivity |];
                  intros E; apply GenderResult_eqb_eq in E; congruence].
Qed.

Lemma step_VideoInv (s s' : Sys) (a : Action) :
  VideoInv s -> step API_KEY s a = Some s' -> VideoInv s'.
Proof.
  unfold VideoInv.
  destruct s as [ui rd cr fl urls ns].
  destruct ui as [img url res ld err cam vid cv os log].
  destruct vid as [[[stream |]] |].
  all: intros [V1 [V2 V3]] H.
  all: destruct a.
  all: crunch.
  all: try solve [repeat split; auto; try congruence; intros st E; inversion E; subst; simpl; auto].
Qed.

Lemma step_UrlsInv (s s' : Sys) (a : Action) :
  UrlsInv s -> step API_KEY s a = Some s' -> UrlsInv s'.
Proof.
  unfold UrlsInv.
  destruct s as [ui rd cr fl urls ns].
  destruct ui as [img url res ld err cam vid cv os log].
  destruct vid as [[[stream |]] |].
  all: intros U H.
  all: destruct a.
  all: crunch.
  all: try solve [auto].
  all: try solve [apply previewCleanup_kept; assumption].
  all: try solve [apply previewCleanup_created; assumption].
Qed.

Lemma step_TypesInv (s s' : Sys) (a : Action) :
  TypesInv s -> step API_KEY s a = Some s' -> TypesInv s'.
Proof.
  unfold TypesInv.
  destruct s as [ui rd cr fl urls ns].
  destruct ui as [img url res ld err cam vid cv os log].
  destruct vid as [[[stream |]] |].
  all: intros [T1 [T2 [T3 T4]]] H.
  all: destruct a.
  all: crunch.
  all: try solve [repeat split; auto].
  all: try solve [
    repeat split; intros;
    repeat match goal with
           | H : In _ (remove_nth _ _) |- _ => apply remove_nth_In in H
           | H : In _ (_ ++ [_]) |- _ =>
               apply in_app_or in H; destruct H as [H | [H | []]]; [| subst]
           | H : Some _ = Some _ |- _ => injection H as H; subst
           | H : None = Some _ |- _ => discriminate H
           | H : nth_error _ _ = Some _ |- _ => apply nth_error_In in H
           | H : negb _ = false |- _ => apply negb_false_iff in H
           | H : (_ <? _)%N = false |- _ => apply N.ltb_ge in H
           | H : In _ (requestsOf (_ ++ _)) |- _ =>
               rewrite requestsOf_app in H; simpl in H;
               rewrite app_nil_r in H
           | D : detectGenderFromImage _ _ _ _ = (_, ?l),
             H : In _ (requestsOf ?l) |- _ =>
               destruct (@detect_requests _ _ _ _ _ _ _ _ D H) as [? | ->];
               clear H
           end;
    unfold imageTyped in *; cbn [mimeType inlineData_mimeType model
                                   text_part request_of];
    auto;
    try (apply T1; assumption); try (apply T2; assumption);
    try (apply T3; assumption); try (apply T4; assumption);
    try (apply (T1 _); assumption)].

Qed.

End MachineFacts.

(** ** What holds after every run *)

Section Reachable.

Context {unicode : CaseMapping}.
Variable API_KEY : option jsstring.

Lemma reachable_LoadingInv (actions : list Action) (s : Sys) :
  run API_KEY initialSys actions = Some s -> LoadingInv s.
Proof.
  apply (run_invariant API_KEY LoadingInv (step_LoadingInv API_KEY)).
  unfold LoadingInv. simpl. repeat split; intros; try congruence; lia.
Qed.

Lemma reachable_CellsInv (actions : list Action) (s : Sys) :
  run API_KEY initialSys actions = Some s -> CellsInv s.
Proof.
  apply (run_invariant API_KEY CellsInv (step_CellsInv API_KEY)).
  unfold CellsInv. simpl. split; [reflexivity | discriminate].
Qed.

Lemma reachable_TypesInv (actions : list Action) (s : Sys) :
  run API_KEY initialSys actions = Some s -> TypesInv s.
Proof.
  apply (run_invariant API_KEY TypesInv (step_TypesInv API_KEY)).
  unfold TypesInv. simpl. repeat split; intros; try contradiction;
    discriminate.
Qed.

Lemma reachable_UrlsInv (actions : list Action) (s : Sys) :
  run API_KEY initialSys actions = Some s -> UrlsInv s.
Proof.
  apply (run_invariant API_KEY UrlsInv (step_UrlsInv API_KEY)).
  unfold UrlsInv. simpl. intros u [].
Qed.

Lemma reachable_VideoInv (actions : list Action) (s : Sys) :
  run API_KEY initialSys actions = Some s -> VideoInv s.
Proof.
  apply (run_invariant API_KEY VideoInv (step_VideoInv API_KEY)).
  unfold VideoInv. simpl. repeat split. intros st E. discriminate E.
Qed.

(** X1: whatever the user does and in whatever order the pending work
    completes, at most one classification is awaited, and one is awaited
    exactly while [isLoading] is set. *)
Theorem at_most_one_classification_in_flight :
  forall (actions : list Action) (s : Sys),
    run API_KEY initialSys actions = Some s ->
    List.length (inFlight s) <= 1 /\
    (isLoading (app s) = true <-> inFlight s <> []).
Proof.
  intros actions s R.
  destruct (reachable_LoadingInv actions R) as [L1 [L2 _]]. auto.
Qed.

(** X2: the component is never loading and in camera mode at once, so the
    reset control, disabled only under [isLoading && isCameraMode], is
    enabled whenever it is shown. *)
Theorem reset_is_never_disabled :
  forall (actions : list Action) (s : Sys),
    run API_KEY initialSys actions = Some s ->
    isLoading (app s) && isCameraMode (app s) = false /\
    resetDisabled (app s) = false /\
    (resetShown (app s) = true ->
     step API_KEY s ClickReset = Some (rendered s (resetState (app s)))).
Proof.
  intros actions s R.
  destruct (reachable_LoadingInv actions R) as [_ [_ L3]].
  assert (D : isLoading (app s) && isCameraMode (app s) = false).
  { destruct (isLoading (app s)); [rewrite L3; reflexivity | reflexivity]. }
  repeat split; auto.
  intros Shown. unfold step, resetDisabled. rewrite Shown, D. reflexivity.
Qed.

(** X3: the preview and the selected image are set and cleared together, so
    the detect control is shown exactly when an image is selected outside
    camera mode. *)
Theorem preview_and_image_together :
  forall (actions : list Action) (s : Sys),
    run API_KEY initialSys actions = Some s ->
    isSome (previewUrl (app s)) = isSome (selectedImage (app s)) /\
    detectShown (app s) =
      isSome (selectedImage (app s)) && negb (isCameraMode (app s)).
Proof.
  intros actions s R.
  destruct (reachable_CellsInv actions R) as [C _].
  split; [exact C |].
  unfold detectShown. rewrite C.
  destruct (isSome (selectedImage (app s))); reflexivity.
Qed.

(** X4: the stored result is never Error (a failed classification only sets
    the message), so the result panel is hidden exactly when the result cell
    is [null]. *)
Theorem stored_result_is_never_Error :
  forall (actions : list Action) (s : Sys),
    run API_KEY initialSys actions = Some s ->
    genderResult (app s) <> Error /\
    (displayedResult (app s) = None <-> genderResult (app s) = Null).
Proof.
  intros actions s R.
  destruct (reachable_CellsInv actions R) as [_ C].
  split; [exact C |].
  unfold displayedResult.
  destruct (genderResult (app s)); split; congruence.
Qed.

(** X5: every request that went out carries a MIME type that starts with
    "image/", the fixed model name and the fixed prompt. *)
Theorem requests_carry_an_image_type :
  forall (actions : list Action) (s : Sys) (req : Request),
    run API_KEY initialSys actions = Some s ->
    In req (requestsOf (console (app s))) ->
    startsWith (inlineData_mimeType req) (js "image/") = true /\
    model req = MODEL_NAME /\ text_part req = PROMPT.
Proof.
  intros actions s req R I.
  destruct (reachable_TypesInv actions R) as [_ [_ [_ T]]]. auto.
Qed.

(** X6: an object URL created for a preview is revoked as soon as the
    preview changes: the only object URL alive is the preview on display,
    and none is alive without a preview. *)
Theorem object_urls_are_revoked :
  forall (actions : list Action) (s : Sys),
    run API_KEY initialSys actions = Some s ->
    (forall u, In u (objectURLs s) -> previewUrl (app s) = Some u) /\
    (previewUrl (app s) = None -> objectURLs s = []).
Proof.
  intros actions s R.
  pose proof (reachable_UrlsInv actions R) as U.
  split.
  - intros u I. apply (U u I).
  - intros N. destruct (objectURLs s) as [| u l] eqn:E; [reflexivity |].
    destruct (U u) as [P _]; [rewrite E; simpl; auto | congruence].
Qed.

(** X7: a stream sits on the video element only in camera mode with no
    image selected, and it is an open one. *)
Theorem attached_stream_means_camera_mode :
  forall (actions : list Action) (s : Sys) (stream : MediaStream),
    run API_KEY initialSys actions = Some s ->
    attachedStream (app s) = Some stream ->
    isCameraMode (app s) = true /\
    selectedImage (app s) = None /\
    previewUrl (app s) = None /\
    In stream (openStreams (app s)).
Proof.
  intros actions s stream R A.
  destruct (reachable_VideoInv actions R) as [V1 [_ V3]].
  destruct (reachable_CellsInv actions R) as [C _].
  unfold attachedStream in *.
  destruct (videoRef (app s)) as [video |] eqn:V; [| discriminate A].
  simpl in V1. symmetry in V1. apply andb_true_iff in V1.
  destruct V1 as [M P].
  destruct (previewUrl (app s)); [discriminate P |].
  destruct (selectedImage (app s)); [discriminate C |].
  repeat split; auto.
Qed.

(** X8: outside camera mode the capture handler changes nothing: the video
    element it needs is not mounted. *)
Theorem capture_outside_camera_mode_changes_nothing :
  forall (actions : list Action) (s : Sys) (context : bool)
         (dataUrl : jsstring),
    run API_KEY initialSys actions = Some s ->
    isCameraMode (app s) = false ->
    captureImage context dataUrl (app s) = app s.
Proof.
  intros actions s context dataUrl R M.
  destruct (reachable_VideoInv actions R) as [V1 _].
  rewrite M in V1. simpl in V1.
  unfold captureImage.
  destruct (videoRef (app s)); [discriminate V1 | reflexivity].
Qed.

End Reachable.

Lemma at_most_one_classification_in_flight_witness :
  List.length (inFlight sampleState) <= 1 /\
  (isLoading (app sampleState) = true <-> inFlight sampleState <> []).
Proof.
  apply (@at_most_one_classification_in_flight asciiCase sampleKey
           sampleSession sampleState).
  vm_compute. reflexivity.
Defined.

Lemma reset_is_never_disabled_witness :
  isLoading (app sampleState) && isCameraMode (app sampleState) = false /\
  resetDisabled (app sampleState) = false /\
  (resetShown (app sampleState) = true ->
   @step asciiCase sampleKey sampleState ClickReset =
   Some (rendered sampleState (resetState (app sampleState)))).
Proof.
  apply (@reset_is_never_disabled asciiCase sampleKey sampleSession
           sampleState).
  vm_compute. reflexivity.
Defined.

Lemma preview_and_image_together_witness :
  isSome (previewUrl (app sampleState)) =
    isSome (selectedImage (app sampleState)) /\
  detectShown (app sampleState) =
    isSome (selectedImage (app sampleState)) &&
    negb (isCameraMode (app sampleState)).
Proof.
  apply (@preview_and_image_together asciiCase sampleKey sampleSession
           sampleState).
  vm_compute. reflexivity.
Defined.

Lemma stored_result_is_never_Error_witness :
  genderResult (app (stateAfter (firstn 4 sampleSession))) <> Error /\
  (displayedResult (app (stateAfter (firstn 4 sampleSession))) = None <->
   genderResult (app (stateAfter (firstn 4 sampleSession))) = Null).
Proof.
  apply (@stored_result_is_never_Error asciiCase sampleKey
           (firstn 4 sampleSession)).
  vm_compute. reflexivity.
Defined.

Lemma requests_carry_an_image_type_witness :
  startsWith (inlineData_mimeType (request_of sampleImage)) (js "image/")
  = true /\
  model (request_of sampleImage) = MODEL_NAME /\
  text_part (request_of sampleImage) = PROMPT.
Proof.
  apply (@requests_carry_an_image_type asciiCase sampleKey sampleSession
           sampleState (request_of sampleImage)).
  - vm_compute. reflexivity.
  - vm_compute. left. reflexivity.
Defined.

Lemma object_urls_are_revoked_witness :
  (forall u, In u (objectURLs (stateAfter (firstn 2 sampleSession))) ->
             previewUrl (app (stateAfter (firstn 2 sampleSession))) = Some u) /\
  (previewUrl (app (stateAfter (firstn 2 sampleSession))) = None ->
   objectURLs (stateAfter (firstn 2 sampleSession)) = []).
Proof.
  apply (@object_urls_are_revoked asciiCase sampleKey
           (firstn 2 sampleSession)).
  vm_compute. reflexivity.
Defined.

Lemma attached_stream_means_camera_mode_witness :
  isCameraMode (app (stateAfter (firstn 6 sampleSession))) = true /\
  selectedImage (app (stateAfter (firstn 6 sampleSession))) = None /\
  previewUrl (app (stateAfter (firstn 6 sampleSession))) = None /\
  In 0 (openStreams (app (stateAfter (firstn 6 sampleSession)))).
Proof.
  apply (@attached_stream_means_camera_mode asciiCase sampleKey
           (firstn 6 sampleSession)).
  - vm_compute. reflexivity.
  - vm_compute. reflexivity.
Defined.

Lemma capture_outside_camera_mode_changes_nothing_witness :
  captureImage true jpegDataUrl (app sampleState) = app sampleState.
Proof.
  apply (@capture_outside_camera_mode_changes_nothing asciiCase sampleKey
           sampleSession).
  - vm_compute. reflexivity.
  - vm_compute. reflexivity.
Defined.

(** ** More on the classification client *)

(** X9: a call sends exactly one request when a credential is configured,
    whether the model answers, answers without text or fails (there is no
    retry), and none without a credential; the request carries the image's
    own type and payload. *)
Theorem one_request_per_call :
  forall (unicode : CaseMapping) API_KEY gemini imageData log,
    requestsOf
      (emitted log (snd (detectGenderFromImage API_KEY gemini imageData log)))
    = (if falsy API_KEY then [] else [request_of imageData]) /\
    inlineData_mimeType (request_of imageData) = mimeType imageData /\
    inlineData_data (request_of imageData) = base64 imageData.
Proof.
  intros unicode API_KEY gemini imageData log.
  destruct (detect_console API_KEY gemini imageData log) as [new [S R]].
  rewrite S, emitted_app, R. repeat split.
Qed.

Lemma fallback_not_Female {unicode : CaseMapping} (t : jsstring) :
  fallback t <> Female.
Proof.
  unfold fallback.
  destruct (includes (toLowerCase t) (js "male")) eqn:M; [discriminate |].
  destruct (includes (toLowerCase t) (js "female")) eqn:F.
  - rewrite (includes_female_male _ F) in M. discriminate M.
  - repeat match goal with
           | |- context [if ?b then _ else _] => destruct b
           end; discriminate.
Qed.

Lemma exactMatch_Female (t : jsstring) :
  exactMatch t = Some Female -> t = js "Female".
Proof.
  unfold exactMatch.
  destruct (str_eqb t (js "Male")); [discriminate |].
  destruct (str_eqb t (js "Female")) eqn:E;
    [intros _; apply str_eqb_eq; exact E |].
  destruct (str_eqb t (js "Indeterminate")); [discriminate |].
  destruct (str_eqb t (js "NoFaceDetected")); discriminate.
Qed.

(** X10: Female is returned only for a reply whose trimmed text is exactly
    "Female": no reply that needs the substring rules is classified
    Female. *)
Theorem Female_only_for_the_exact_keyword :
  forall (unicode : CaseMapping) API_KEY gemini imageData log,
    fst (detectGenderFromImage API_KEY gemini imageData log) = Normal Female ->
    exists t,
      gemini (request_of imageData) = Normal {| text := Some t |} /\
      trim t = js "Female".
Proof.
  intros unicode API_KEY gemini imageData log R.
  destruct (falsy API_KEY) eqn:K.
  - rewrite detect_unconfigured in R by exact K. discriminate R.
  - destruct (gemini (request_of imageData)) as [[[t |]] | e] eqn:G.
    + rewrite (detect_text _ _ _ log K G eq_refl) in R.
      exists t. split; [reflexivity |].
      destruct (exactMatch (trim t)) as [k |] eqn:X.
      * inversion R; subst. apply exactMatch_Female. exact X.
      * inversion R as [F]. destruct (fallback_not_Female _ F).
    + rewrite (detect_no_text _ _ _ log K G eq_refl) in R. discriminate R.
    + rewrite (detect_rejected _ _ _ log K G) in R. discriminate R.
Qed.

Lemma Female_only_for_the_exact_keyword_witness :
  exists t,
    replies (js " Female") (request_of sampleImage)
    = Normal {| text := Some t |} /\
    trim t = js "Female".
Proof.
  apply (@Female_only_for_the_exact_keyword asciiCase sampleKey
           (replies (js " Female")) sampleImage []).
  vm_compute. reflexivity.
Defined.

(** ** More on the handlers *)

(** X11: a classification that nothing interrupts.  With an image and a
    credential it sends one request and ends with [isLoading] cleared, the
    image and preview untouched, and exactly one of a stored result (one of
    the four outcomes) and the failure message; without an image or without
    a credential it sends nothing and only sets a message. *)
Theorem handleDetectGender_outcome :
  forall (unicode : CaseMapping) API_KEY gemini (s : App),
    (forall image,
        selectedImage s = Some image -> falsy API_KEY = false ->
        isLoading (handleDetectGender API_KEY gemini s) = false /\
        selectedImage (handleDetectGender API_KEY gemini s) = Some image /\
        previewUrl (handleDetectGender API_KEY gemini s) = previewUrl s /\
        requestsOf (emitted (console s)
                      (console (handleDetectGender API_KEY gemini s)))
        = [request_of image] /\
        (In (genderResult (handleDetectGender API_KEY gemini s))
            [Male; Female; Indeterminate; NoFaceDetected] /\
         error (handleDetectGender API_KEY gemini s) = None \/
         genderResult (handleDetectGender API_KEY gemini s) = Null /\
         error (handleDetectGender API_KEY gemini s)
         = Some detectFailedMessage)) /\
    (selectedImage s = None \/ falsy API_KEY = true ->
     console (handleDetectGender API_KEY gemini s) = console s /\
     isLoading (handleDetectGender API_KEY gemini s) = isLoading s /\
     genderResult (handleDetectGender API_KEY gemini s) = genderResult s /\
     error (handleDetectGender API_KEY gemini s) <> None).
Proof.
  intros unicode API_KEY gemini s.
  destruct s as [img url res ld err cam vid cv os log].
  unfold handleDetectGender, handleDetectGender_begin. cbn [selectedImage].
  split.
  - intros image -> K. rewrite K. cbn [console setError setGenderResult
                                        setIsLoading].
    destruct (detect_outcome API_KEY gemini image log) as [r [R I]].
    destruct (detect_console API_KEY gemini image log) as [new [S Q]].
    rewrite K in Q.
    destruct (detectGenderFromImage API_KEY gemini image log)
      as [outcome log'].
    simpl in R, S. subst outcome log'.
    unfold handleDetectGender_resume.
    destruct r; simpl in I;
      cbv beta iota delta [GenderResult_eqb]; compute_cells;
      rewrite ?emitted_app;
      try (exfalso; intuition discriminate);
      (split; [reflexivity |]); (split; [reflexivity |]);
      (split; [reflexivity |]); (split; [exact Q |]);
      solve [left; split; [simpl; tauto | reflexivity]
            | right; split; reflexivity].
  - intros [-> | K].
    + cbn. repeat split. discriminate.
    + destruct img; rewrite ?K; cbn; repeat split; discriminate.
Qed.

Lemma split_comma_no_comma (s : jsstring) :
  hasComma s = false -> split_comma s = [s].
Proof.
  unfold hasComma. induction s as [| c s IH]; cbn [existsb split_comma];
    [reflexivity |].
  intros H. apply orb_false_iff in H. destruct H as [C H].
  rewrite N.eqb_sym, C, (IH H). reflexivity.
Qed.

Lemma split_comma_at_comma (header rest : jsstring) :
  hasComma header = false ->
  split_comma (header ++ 44%N :: rest) = header :: split_comma rest.
Proof.
  unfold hasComma.
  induction header as [| c h IH]; cbn [existsb split_comma app].
  - intros _. reflexivity.
  - intros H. apply orb_false_iff in H. destruct H as [C H].
    change (split_comma ((c :: h) ++ 44%N :: rest))
      with (if (c =? 44)%N then [] :: split_comma (h ++ 44%N :: rest)
            else match split_comma (h ++ 44%N :: rest) with
                 | [] => [[c]]
                 | f :: fs => (c :: f) :: fs
                 end).
    rewrite N.eqb_sym, C, (IH H). reflexivity.
Qed.

(** X12: an upload stores what the file holds.  For an image file of at most
    4 MiB whose data URL is a header, a comma and a payload (neither holding
    a comma), the read is started and, once complete, the selected image is
    the payload under the file's own type and name, the preview is the
    object URL, the detect control is shown, and the request built from the
    image carries that payload and type. *)
Theorem upload_stores_what_the_file_holds :
  forall (file : File) (s : App) (header payload objectURL : jsstring),
    startsWith (file_type file) (js "image/") = true ->
    (file_size file <= MAX_FILE_SIZE)%N ->
    hasComma header = false ->
    hasComma payload = false ->
    snd (handleImageUpload (Some file) s) = Some file /\
    selectedImage
      (reader_onloadend file (Some (header ++ 44%N :: payload)) objectURL
         (commit (fst (handleImageUpload (Some file) s))))
    = Some {| base64 := Some payload; mimeType := file_type file;
              name := Some (file_name file) |} /\
    previewUrl
      (reader_onloadend file (Some (header ++ 44%N :: payload)) objectURL
         (commit (fst (handleImageUpload (Some file) s))))
    = Some objectURL /\
    detectShown
      (commit
         (reader_onloadend file (Some (header ++ 44%N :: payload)) objectURL
            (commit (fst (handleImageUpload (Some file) s)))))
    = true /\
    request_of {| base64 := Some payload; mimeType := file_type file;
                  name := Some (file_name file) |}
    = {| model := MODEL_NAME; inlineData_mimeType := file_type file;
         inlineData_data := Some payload; text_part := PROMPT |}.
Proof.
  intros file s header payload objectURL T Z H P.
  rewrite handleImageUpload_cases, T. cbn [negb].
  apply N.ltb_ge in Z. rewrite Z. cbn [fst snd].
  assert (F : nth_error (split_comma (header ++ 44%N :: payload)) 1
              = Some payload).
  { rewrite (@split_comma_at_comma header payload H).
    rewrite (@split_comma_no_comma payload P). reflexivity. }
  unfold reader_onloadend. rewrite F.
  repeat split.
Qed.

Lemma upload_stores_what_the_file_holds_witness :
  snd (handleImageUpload (Some pngFile) classifiedApp) = Some pngFile /\
  selectedImage
    (reader_onloadend pngFile
       (Some (js "data:image/png;base64" ++ 44%N :: js "iVBORw0KGgo="))
       blobUrl (commit (fst (handleImageUpload (Some pngFile) classifiedApp))))
  = Some {| base64 := Some (js "iVBORw0KGgo=");
            mimeType := file_type pngFile;
            name := Some (file_name pngFile) |} /\
  previewUrl
    (reader_onloadend pngFile
       (Some (js "data:image/png;base64" ++ 44%N :: js "iVBORw0KGgo="))
       blobUrl (commit (fst (handleImageUpload (Some pngFile) classifiedApp))))
  = Some blobUrl /\
  detectShown
    (commit
       (reader_onloadend pngFile
          (Some (js "data:image/png;base64" ++ 44%N :: js "iVBORw0KGgo="))
          blobUrl
          (commit (fst (handleImageUpload (Some pngFile) classifiedApp)))))
  = true /\
  request_of {| base64 := Some (js "iVBORw0KGgo=");
                mimeType := file_type pngFile;
                name := Some (file_name pngFile) |}
  = {| model := MODEL_NAME; inlineData_mimeType := file_type pngFile;
       inlineData_data := Some (js "iVBORw0KGgo="); text_part := PROMPT |}.
Proof.
  apply (upload_stores_what_the_file_holds pngFile classifiedApp
           (js "data:image/png;base64") (js "iVBORw0KGgo=") blobUrl).
  - reflexivity.
  - vm_compute. discriminate.
  - reflexivity.
  - reflexivity.
Defined.

(** X13: a capture releases the camera.  With the video element holding a
    stream, the canvas mounted and a 2d context, [captureImage] stops that
    stream and takes it off the video element, leaves every other stream as
    it was, turns camera mode off and selects the frame as a JPEG with the
    data URL as preview; the result, error and loading cells are not
    touched. *)
Theorem captureImage_releases_the_camera :
  forall (s : App) (stream : MediaStream) (dataUrl : jsstring),
    attachedStream s = Some stream ->
    canvasRef s = true ->
    attachedStream (captureImage true dataUrl s) = None /\
    ~ In stream (openStreams (captureImage true dataUrl s)) /\
    (forall other, other <> stream ->
       (In other (openStreams (captureImage true dataUrl s)) <->
        In other (openStreams s))) /\
    isCameraMode (captureImage true dataUrl s) = false /\
    selectedImage (captureImage true dataUrl s)
    = Some {| base64 := nth_error (split_comma dataUrl) 1;
              mimeType := js "image/jpeg"; name := None |} /\
    previewUrl (captureImage true dataUrl s) = Some dataUrl /\
    genderResult (captureImage true dataUrl s) = genderResult s /\
    error (captureImage true dataUrl s) = error s /\
    isLoading (captureImage true dataUrl s) = isLoading s.
Proof.
  intros s stream dataUrl A C.
  destruct s as [img url res ld err cam vid cv os log].
  unfold attachedStream in A. cbn [videoRef canvasRef] in A, C.
  destruct vid as [[[st |]] |]; try discriminate A.
  cbn [srcObject] in A. injection A as ->. subst cv.
  compute_cells. repeat split.
  - rewrite filter_In, Nat.eqb_refl. intros [_ F]. discriminate F.
  - rewrite filter_In. tauto.
  - intros I. rewrite filter_In. split; [exact I |].
    apply negb_true_iff, Nat.eqb_neq. assumption.
Qed.

Lemma captureImage_releases_the_camera_witness :
  attachedStream (captureImage true jpegDataUrl cameraLiveApp) = None /\
  ~ In 7 (openStreams (captureImage true jpegDataUrl cameraLiveApp)) /\
  (forall other, other <> 7 ->
     (In other (openStreams (captureImage true jpegDataUrl cameraLiveApp)) <->
      In other (openStreams cameraLiveApp))) /\
  isCameraMode (captureImage true jpegDataUrl cameraLiveApp) = false /\
  selectedImage (captureImage true jpegDataUrl cameraLiveApp)
  = Some {| base64 := nth_error (split_comma jpegDataUrl) 1;
            mimeType := js "image/jpeg"; name := None |} /\
  previewUrl (captureImage true jpegDataUrl cameraLiveApp)
  = Some jpegDataUrl /\
  genderResult (captureImage true jpegDataUrl cameraLiveApp)
  = genderResult cameraLiveApp /\
  error (captureImage true jpegDataUrl cameraLiveApp) = error cameraLiveApp /\
  isLoading (captureImage true jpegDataUrl cameraLiveApp)
  = isLoading cameraLiveApp.
Proof.
  apply (@captureImage_releases_the_camera cameraLiveApp 7 jpegDataUrl).
  - reflexivity.
  - reflexivity.
Defined.

(** X14: a camera request that is denied, from any state, ends in Idle with
    the camera message: nothing selected, no preview, no result, camera mode
    off, no stream on the video element, and no stream opened that the reset
    had not left open. *)
Theorem denied_camera_returns_to_Idle :
  forall (s : App) (err : Thrown),
    Idle (startCamera_denied err (commit (startCamera_begin s))) /\
    previewUrl (startCamera_denied err (commit (startCamera_begin s))) = None /\
    genderResult (startCamera_denied err (commit (startCamera_begin s)))
    = Null /\
    error (startCamera_denied err (commit (startCamera_begin s)))
    = Some (js "Could not access camera. Please ensure permissions are granted.") /\
    openStreams (startCamera_denied err (commit (startCamera_begin s)))
    = openStreams (resetState s) /\
    isLoading (startCamera_denied err (commit (startCamera_begin s)))
    = isLoading s /\
    emitted (console s)
      (console (startCamera_denied err (commit (startCamera_begin s))))
    = [ConsoleError (js "Error accessing camera:") (Some err)].
Proof.
  intros s err.
  destruct s as [img url res ld err0 cam vid cv os log].
  unfold Idle. destruct vid as [[[st |]] |]; compute_cells;
    rewrite emitted_app; repeat split.
Qed.

(** X15: the camera round trip.  From any state, starting the camera, being
    granted the stream and capturing a frame leaves that stream stopped and
    the open streams exactly those the initial reset left open, apart from
    it; the frame is selected as a JPEG and camera mode is off. *)
Theorem camera_round_trip_releases_the_stream :
  forall (s : App) (stream : MediaStream) (dataUrl : jsstring),
    openStreams
      (captureImage true dataUrl
         (commit (startCamera_granted stream
                    (commit (startCamera_begin s)))))
    = filter (fun st => negb (Nat.eqb st stream))
        (openStreams (resetState s)) /\
    attachedStream
      (captureImage true dataUrl
         (commit (startCamera_granted stream
                    (commit (startCamera_begin s))))) = None /\
    isCameraMode
      (captureImage true dataUrl
         (commit (startCamera_granted stream
                    (commit (startCamera_begin s))))) = false /\
    selectedImage
      (captureImage true dataUrl
         (commit (startCamera_granted stream
                    (commit (startCamera_begin s)))))
    = Some {| base64 := nth_error (split_comma dataUrl) 1;
              mimeType := js "image/jpeg"; name := None |} /\
    detectShown
      (commit
         (captureImage true dataUrl
            (commit (startCamera_granted stream
                       (commit (startCamera_begin s)))))) = true.
Proof.
  intros s stream dataUrl.
  destruct s as [img url res ld err cam vid cv os log].
  destruct vid as [[[st |]] |]; compute_cells;
    cbn [filter]; rewrite Nat.eqb_refl; cbn [negb]; repeat split.
Qed.
